(** * EndpointsBuilder: the outbound request dispatcher of kenya_compliance

    A shallow embedding of [kenya_compliance/apis/api_builder.py] and the
    properties its specification states about it.

    Python values are modelled by small inductive types, dictionaries by
    stdpp's [gmap], [self] and the collaborators' stores by explicit state,
    raised exceptions by an error result, and [try]/[except] by a handler
    combinator that matches on the exception's class.  Strings are strings of
    code points below 256. *)

From Stdlib Require Import ZArith Ascii String List Lia.
From stdpp Require Import base tactics option list strings gmap.

Local Open Scope Z_scope.

(** ** Python strings *)

Module Str.

(** [len(s)] *)
Definition len (s : string) : Z := Z.of_nat (String.length s).

(** [c in s] for a one-character [c] *)
Fixpoint contains (c : ascii) (s : string) : bool :=
  match s with
  | EmptyString => false
  | String a s' => if Ascii.eqb a c then true else contains c s'
  end.

Fixpoint take (n : nat) (s : string) : string :=
  match n, s with
  | S n', String a s' => String a (take n' s')
  | _, _ => EmptyString
  end.

Fixpoint drop (n : nat) (s : string) : string :=
  match n, s with
  | S n', String _ s' => drop n' s'
  | _, _ => s
  end.

(** A slice bound as Python resolves it: negative bounds count from the
    end, and the result is clipped to [0 .. len(s)]. *)
Definition bound (i : Z) (s : string) : nat :=
  let i' := if i <? 0 then i + len s else i in
  Z.to_nat (Z.max 0 (Z.min i' (len s))).

(** [s[:i]] *)
Definition slice_to (i : Z) (s : string) : string := take (bound i s) s.

(** [s[i:]] *)
Definition slice_from (i : Z) (s : string) : string := drop (bound i s) s.

(** [s[i:j]] *)
Definition slice (i j : Z) (s : string) : string :=
  take (bound j s - bound i s) (drop (bound i s) s).

(** Position of the first [c] in [s], counted from [pos]. *)
Fixpoint find_aux (c : ascii) (s : string) (pos : Z) : Z :=
  match s with
  | EmptyString => -1
  | String a s' => if Ascii.eqb a c then pos else find_aux c s' (pos + 1)
  end.

(** [s.find(c)], [-1] when [c] does not occur *)
Definition find (c : ascii) (s : string) : Z := find_aux c s 0.

(** [s.find(c, start)] *)
Definition find_from (c : ascii) (start : Z) (s : string) : Z :=
  if len s <? (if start <? 0 then Z.max 0 (start + len s) else start) then -1
  else find_aux c (slice_from start s) (Z.of_nat (bound start s)).

(** Position of the last [c] in [s]; [best] is the answer so far. *)
Fixpoint rfind_aux (c : ascii) (s : string) (pos best : Z) : Z :=
  match s with
  | EmptyString => best
  | String a s' =>
      rfind_aux c s' (pos + 1) (if Ascii.eqb a c then pos else best)
  end.

(** [s.rfind(c)], [-1] when [c] does not occur *)
Definition rfind (c : ascii) (s : string) : Z := rfind_aux c s 0 (-1).

(** [s.split(c)]: every piece between occurrences of [c]; never empty. *)
Fixpoint split (c : ascii) (s : string) : list string :=
  match s with
  | EmptyString => [EmptyString]
  | String a s' =>
      if Ascii.eqb a c then EmptyString :: split c s'
      else match split c s' with
           | [] => [String a EmptyString]
           | piece :: pieces => String a piece :: pieces
           end
  end.

(** [s.split(c, 1)[0]]: the text before the first [c] (all of [s] when
    [c] does not occur). *)
Fixpoint before (c : ascii) (s : string) : string :=
  match s with
  | EmptyString => EmptyString
  | String a s' => if Ascii.eqb a c then EmptyString else String a (before c s')
  end.

(** [s.split(c, 1)[1]] when [c] occurs in [s] *)
Fixpoint after (c : ascii) (s : string) : string :=
  match s with
  | EmptyString => EmptyString
  | String a s' => if Ascii.eqb a c then s' else after c s'
  end.

Fixpoint filter (keep : ascii -> bool) (s : string) : string :=
  match s with
  | EmptyString => EmptyString
  | String a s' => if keep a then String a (filter keep s') else filter keep s'
  end.

(** [s.lstrip(chars)], with [chars] given as a predicate *)
Fixpoint lstrip (strip : ascii -> bool) (s : string) : string :=
  match s with
  | EmptyString => EmptyString
  | String a s' => if strip a then lstrip strip s' else s
  end.

Fixpoint all (p : ascii -> bool) (s : string) : bool :=
  match s with
  | EmptyString => true
  | String a s' => p a && all p s'
  end.

Fixpoint map (f : ascii -> ascii) (s : string) : string :=
  match s with
  | EmptyString => EmptyString
  | String a s' => String (f a) (map f s')
  end.

Definition code (c : ascii) : N := N_of_ascii c.

Definition is_upper (c : ascii) : bool := ((65 <=? code c) && (code c <=? 90))%N.
Definition is_lower (c : ascii) : bool := ((97 <=? code c) && (code c <=? 122))%N.
Definition is_digit (c : ascii) : bool := ((48 <=? code c) && (code c <=? 57))%N.
Definition is_alpha (c : ascii) : bool := is_upper c || is_lower c.

Definition to_lower (c : ascii) : ascii :=
  if is_upper c then ascii_of_N (code c + 32) else c.

(** [s.lower()] *)
Definition lower (s : string) : string := map to_lower s.

(** [c.join(pieces)] *)
Fixpoint join (c : ascii) (pieces : list string) : string :=
  match pieces with
  | [] => EmptyString
  | [piece] => piece
  | piece :: rest => piece +:+ String c (join c rest)
  end.

(** [s.rpartition(c)[2]]: the text after the last [c] (all of [s] when [c]
    does not occur). *)
Fixpoint after_last (c : ascii) (s : string) : string :=
  match s with
  | EmptyString => EmptyString
  | String a s' =>
      if contains c s' then after_last c s'
      else if Ascii.eqb a c then s' else s
  end.

(** [s.startswith(c)] *)
Definition startswith (c : ascii) (s : string) : bool :=
  match s with
  | String a _ => Ascii.eqb a c
  | EmptyString => false
  end.

(** [s.replace(c, '')] *)
Definition remove (c : ascii) (s : string) : string :=
  filter (fun a => negb (Ascii.eqb a c)) s.

(** [s.isascii()] *)
Definition isascii (s : string) : bool := all (fun a => (code a <? 128)%N) s.

(** The longest prefix of [s] whose characters satisfy [p], and the rest. *)
Fixpoint span (p : ascii -> bool) (s : string) : string * string :=
  match s with
  | EmptyString => (EmptyString, EmptyString)
  | String a s' =>
      if p a then let '(run, rest) := span p s' in (String a run, rest)
      else (EmptyString, s)
  end.

(** [l[-1]] on a list: [None] stands for the [IndexError] of an empty list. *)
Definition last_item (l : list string) : option string := last l.

End Str.

(** ** Python values, exceptions and the collaborators' data *)

Local Set Warnings "-register-all".

(** JSON-like values: what a payload, a header or a response holds. *)
Inductive pyval :=
| PyNone
| PyBool (b : bool)
| PyInt (n : Z)
| PyStr (s : string)
| PyList (items : list pyval)
| PyDict (items : list (string * pyval)).

Abbreviation dict := (gmap string pyval).

(** [v == s] for a [str] literal [s]: only an equal string compares equal. *)
Definition eq_str (v : pyval) (s : string) : bool :=
  match v with
  | PyStr t => String.eqb t s
  | _ => false
  end.

(** The exceptions of [aiohttp] and [asyncio] that [make_remote_call]
    names.  [ClientConnectorError] is a subclass of [ClientOSError]; the
    constructor [ClientOSError] stands for the instances of that class which
    are not connector errors, as the second [except] clause only sees those. *)
Inductive transport_error :=
| ClientConnectorError (detail : string)
| ClientOSError (detail : string)
| TimeoutError (detail : string).

(** The [exc] argument of [frappe.throw]: an exception class, or (as in the
    [except] clauses) the caught instance. *)
Inductive throw_exc :=
| MandatoryError
| ErrorInstance (error : transport_error).

Inductive exception :=
| Transport (error : transport_error)
| KeyError (key : string)
| IndexError
| ValueError (msg : string)
| Thrown (msg : string) (exc : throw_exc) (title : string)
| OtherException (cls : string).

(** How an expression ends: with a value, or with an exception raised. *)
Inductive outcome (A : Type) :=
| Done (a : A)
| Raised (e : exception).
Arguments Done {A} a.
Arguments Raised {A} e.

#[global] Instance outcome_ret : MRet outcome := fun A a => Done a.

#[global] Instance outcome_bind : MBind outcome := fun A B f o =>
  match o with
  | Done a => f a
  | Raised e => Raised e
  end.

(** ** [urllib.parse]: splitting a URL into its components

    [urlsplit] and [urlparse] of CPython 3.11 for [str] input with the
    default arguments ([scheme=''], [allow_fragments=True]), with the host
    checks that make them raise [ValueError].  Two library functions that the
    checks call are parameters: [ipaddress.ip_address] and
    [unicodedata.normalize('NFKC', _)]. *)

Module parse.

Definition uses_params : list string :=
  [""; "ftp"; "hdl"; "prospero"; "http"; "imap"; "https"; "shttp"; "rtsp";
   "rtspu"; "sip"; "sips"; "mms"; "sftp"; "tel"]%string.

Definition scheme_char (c : ascii) : bool :=
  Str.is_alpha c || Str.is_digit c
  || Ascii.eqb c "+" || Ascii.eqb c "-" || Ascii.eqb c ".".

(** The characters of [_WHATWG_C0_CONTROL_OR_SPACE]. *)
Definition c0_control_or_space (c : ascii) : bool := (Str.code c <=? 32)%N.

(** The characters of [_UNSAFE_URL_BYTES_TO_REMOVE]: tab, CR, LF. *)
Definition unsafe_url_byte (c : ascii) : bool :=
  (Str.code c =? 9)%N || (Str.code c =? 13)%N || (Str.code c =? 10)%N.

(** [_splitnetloc(url, start)] *)
Definition _splitnetloc (url : string) (start : Z) : string * string :=
  let step (delim : Z) (c : ascii) :=
    let wdelim := Str.find_from c start url in
    if 0 <=? wdelim then Z.min delim wdelim else delim in
  let delim := fold_left step ["/"; "?"; "#"]%char (Str.len url) in
  (Str.slice start delim url, Str.slice_from delim url).

(** What [ipaddress.ip_address] returns. *)
Inductive ip_address_class :=
| IPv4Address
| IPv6Address.

Definition is_hex (c : ascii) : bool :=
  Str.is_digit c
  || ((65 <=? Str.code c) && (Str.code c <=? 70))%N
  || ((97 <=? Str.code c) && (Str.code c <=? 102))%N.

(** [re.match(r"\Av[a-fA-F0-9]+\..+\Z", hostname)]: a [v], hexadecimal
    digits, a dot, and at least one more character, none a line feed. *)
Definition ipvfuture (hostname : string) : bool :=
  match hostname with
  | String "v" rest =>
      let '(digits, rest) := Str.span is_hex rest in
      match digits, rest with
      | String _ _, String "." (String a tail) =>
          Str.all (fun c => negb (Str.code c =? 10)%N) (String a tail)
      | _, _ => false
      end
  | _ => false
  end.

Record SplitResult := {
  split_scheme : string;
  split_netloc : string;
  split_path : string;
  split_query : string;
  split_fragment : string
}.

Section HostChecks.

(** [ipaddress.ip_address(hostname)]: the class of the address, or the
    [ValueError] it raises. *)
Variable ip_address : string -> outcome ip_address_class.

(** [unicodedata.normalize('NFKC', n)] *)
Variable normalize_nfkc : string -> string.

(** [_checknetloc(netloc)] *)
Definition _checknetloc (netloc : string) : outcome unit :=
  if String.eqb netloc "" || Str.isascii netloc then Done tt
  else
    let n := Str.remove "@" netloc in
    let n := Str.remove ":" n in
    let n := Str.remove "#" n in
    let n := Str.remove "?" n in
    let netloc2 := normalize_nfkc n in
    if String.eqb n netloc2 then Done tt
    else if existsb (fun c => Str.contains c netloc2) ["/"; "?"; "#"; "@"; ":"]%char
    then Raised (ValueError ("netloc '" +:+ netloc +:+ "' contains invalid "
                             +:+ "characters under NFKC normalization"))
    else Done tt.

(** [_check_bracketed_host(hostname)] *)
Definition _check_bracketed_host (hostname : string) : outcome unit :=
  if Str.startswith "v" hostname then
    if ipvfuture hostname then Done tt
    else Raised (ValueError "IPvFuture address is invalid")
  else
    ip ← ip_address hostname;
    match ip with
    | IPv4Address => Raised (ValueError "An IPv4 address cannot be in brackets")
    | IPv6Address => Done tt
    end.

(** [_check_bracketed_netloc(netloc)] *)
Definition _check_bracketed_netloc (netloc : string) : outcome unit :=
  let hostname_and_port := Str.after_last "@" netloc in
  let before_bracket := Str.before "[" hostname_and_port in
  let have_open_br := Str.contains "[" hostname_and_port in
  let bracketed := Str.after "[" hostname_and_port in
  if have_open_br then
    if negb (String.eqb before_bracket "") then Raised (ValueError "Invalid IPv6 URL")
    else
      let hostname := Str.before "]" bracketed in
      let port := Str.after "]" bracketed in
      if negb (String.eqb port "") && negb (Str.startswith ":" port)
      then Raised (ValueError "Invalid IPv6 URL")
      else _check_bracketed_host hostname
  else _check_bracketed_host (Str.before ":" hostname_and_port).

(** [urlsplit(url)] *)
Definition urlsplit (url : string) : outcome SplitResult :=
  let url := Str.lstrip c0_control_or_space url in
  let url := Str.filter (fun c => negb (unsafe_url_byte c)) url in
  let i := Str.find ":" url in
  let '(scheme, url) :=
    if (0 <? i)
       && match url with String a _ => Str.is_alpha a | EmptyString => false end
       && Str.all scheme_char (Str.slice_to i url)
    then (Str.lower (Str.slice_to i url), Str.slice_from (i + 1) url)
    else (EmptyString, url) in
  '(netloc, url) ←
    (if String.eqb (Str.slice_to 2 url) "//" then
       let '(netloc, url) := _splitnetloc url 2 in
       if (Str.contains "[" netloc && negb (Str.contains "]" netloc))
          || (Str.contains "]" netloc && negb (Str.contains "[" netloc))
       then Raised (ValueError "Invalid IPv6 URL")
       else
         (if Str.contains "[" netloc && Str.contains "]" netloc
          then _check_bracketed_netloc netloc
          else Done tt);;
         Done (netloc, url)
     else Done (EmptyString, url));
  let '(url, fragment) :=
    if Str.contains "#" url then (Str.before "#" url, Str.after "#" url)
    else (url, EmptyString) in
  let '(url, query) :=
    if Str.contains "?" url then (Str.before "?" url, Str.after "?" url)
    else (url, EmptyString) in
  _checknetloc netloc;;
  Done {| split_scheme := scheme; split_netloc := netloc; split_path := url;
          split_query := query; split_fragment := fragment |}.

(** [_splitparams(url)] *)
Definition _splitparams (url : string) : string * string :=
  if Str.contains "/" url then
    let i := Str.find_from ";" (Str.rfind "/" url) url in
    if i <? 0 then (url, EmptyString)
    else (Str.slice_to i url, Str.slice_from (i + 1) url)
  else
    let i := Str.find ";" url in
    (Str.slice_to i url, Str.slice_from (i + 1) url).

Record ParseResult := {
  scheme : string;
  netloc : string;
  path : string;
  params : string;
  query : string;
  fragment : string
}.

(** [urlparse(url)] *)
Definition urlparse (url : string) : outcome ParseResult :=
  r ← urlsplit url;
  let '(url, params) :=
    if bool_decide (split_scheme r ∈ uses_params) && Str.contains ";" (split_path r)
    then _splitparams (split_path r)
    else (split_path r, EmptyString) in
  Done {| scheme := split_scheme r; netloc := split_netloc r; path := url;
          params := params; query := split_query r; fragment := split_fragment r |}.

End HostChecks.

End parse.

(** The [doctype] argument: a document, or the name of a doctype. *)
Inductive Doctype :=
| DoctypeDocument (docname : string)
| DoctypeName (doctype : string).

(** What calling a caller-supplied handler does to the control flow. *)
Inductive call_result :=
| Returns
| Raises (e : exception).

Definition success_callback_t : Type := dict -> call_result.

(** [(response, url, doctype, document_name, integration_reqeust_name)]; the
    last keyword is spelt as in the source. *)
Definition error_callback_t : Type :=
  dict -> string -> option Doctype -> option string -> string -> call_result.

(** The Integration Request document written by [create_request_log], with
    the fields that [make_remote_call] passes. *)
Module frappe.

Record IntegrationRequest := {
  name : string;
  data : option dict;
  is_remote_request : bool;
  service_name : string;
  request_headers : dict;
  url : string;
  reference_docname : option string;
  reference_doctype : option Doctype
}.

End frappe.

Abbreviation IntegrationRequest := frappe.IntegrationRequest.

(** Modelled from the spec: the result of the transport
    [make_post_request] of [kenya_compliance/utils.py], which is not part of
    the sources at hand: [perform(...) -> response | fault], the response a
    structured mapping and the faults connection-establishment failure,
    connection reset and deadline exceeded. *)
Inductive post_result :=
| Responds (response : dict)
| Fails (error : transport_error).

(** The calls [make_remote_call] makes, in the order it makes them. *)
Inductive event :=
| CreateRequestLog (request : IntegrationRequest)
| MakePostRequest (url : string) (payload : option dict) (headers : dict)
| SuccessCallback (response : dict)
| ErrorCallback (response : dict) (url : string) (doctype : option Doctype)
    (document_name : option string) (integration_reqeust_name : string)
| UpdateLastRequestDate (response_datetime : pyval) (route : string)
| LoggerException (error : transport_error) (exc_info : bool).

(** Everything outside the dispatcher that a dispatch touches. *)
Record World := {
  integration_requests : list IntegrationRequest;
  last_request_dates : gmap string pyval;
  history : list event
}.

(** ** The class [EndpointsBuilder] *)

Record EndpointsBuilder := {
  _method : string;
  _url : option string;
  _payload : option dict;
  _headers : option dict;
  _error : option string;
  _success_callback_handler : option success_callback_t;
  _error_callback_handler : option error_callback_t
}.

(** [__init__] *)
Definition init : EndpointsBuilder :=
  {| _method := "POST"; _url := None; _payload := None; _headers := None;
     _error := None; _success_callback_handler := None;
     _error_callback_handler := None |}.

(** The properties: each getter returns its field, each setter assigns what
    it is given ([None] included, where the field can hold it). *)
Definition method (self : EndpointsBuilder) : string := _method self.

Definition set_method (new_method : string) (self : EndpointsBuilder) : EndpointsBuilder :=
  {| _method := new_method; _url := _url self; _payload := _payload self;
     _headers := _headers self; _error := _error self;
     _success_callback_handler := _success_callback_handler self;
     _error_callback_handler := _error_callback_handler self |}.

Definition url (self : EndpointsBuilder) : option string := _url self.

Definition set_url (new_url : option string) (self : EndpointsBuilder) : EndpointsBuilder :=
  {| _method := _method self; _url := new_url; _payload := _payload self;
     _headers := _headers self; _error := _error self;
     _success_callback_handler := _success_callback_handler self;
     _error_callback_handler := _error_callback_handler self |}.

Definition payload (self : EndpointsBuilder) : option dict := _payload self.

Definition set_payload (new_payload : option dict) (self : EndpointsBuilder) : EndpointsBuilder :=
  {| _method := _method self; _url := _url self; _payload := new_payload;
     _headers := _headers self; _error := _error self;
     _success_callback_handler := _success_callback_handler self;
     _error_callback_handler := _error_callback_handler self |}.

Definition error (self : EndpointsBuilder) : option string := _error self.

Definition set_error (new_error : option string) (self : EndpointsBuilder) : EndpointsBuilder :=
  {| _method := _method self; _url := _url self; _payload := _payload self;
     _headers := _headers self; _error := new_error;
     _success_callback_handler := _success_callback_handler self;
     _error_callback_handler := _error_callback_handler self |}.

Definition headers (self : EndpointsBuilder) : option dict := _headers self.

Definition set_headers (new_headers : option dict) (self : EndpointsBuilder) : EndpointsBuilder :=
  {| _method := _method self; _url := _url self; _payload := _payload self;
     _headers := new_headers; _error := _error self;
     _success_callback_handler := _success_callback_handler self;
     _error_callback_handler := _error_callback_handler self |}.

Definition success_callback (self : EndpointsBuilder) : option success_callback_t :=
  _success_callback_handler self.

Definition set_success_callback (callback : option success_callback_t)
    (self : EndpointsBuilder)
  : EndpointsBuilder :=
  {| _method := _method self; _url := _url self; _payload := _payload self;
     _headers := _headers self; _error := _error self;
     _success_callback_handler := callback;
     _error_callback_handler := _error_callback_handler self |}.

Definition error_callback (self : EndpointsBuilder) : option error_callback_t :=
  _error_callback_handler self.

Definition set_error_callback (callback : option error_callback_t)
    (self : EndpointsBuilder)
  : EndpointsBuilder :=
  {| _method := _method self; _url := _url self; _payload := _payload self;
     _headers := _headers self; _error := _error self;
     _success_callback_handler := _success_callback_handler self;
     _error_callback_handler := callback |}.

(** The values the annotation of the [method] setter lists. *)
Definition setter_literals : list string := ["GET"; "PUT"; "PATCH"]%string.

(** ** Effects: state, exceptions, [try]/[except] *)

(** The state a dispatch runs in: the dispatcher object and the world. *)
Record state := {
  this : EndpointsBuilder;
  world : World
}.

(** A statement or expression of the method body: it runs in a state and
    either finishes with a value or raises, leaving a state behind. *)
Definition M (A : Type) : Type := state -> outcome A * state.

#[global] Instance M_ret : MRet M := fun A a s => (Done a, s).

#[global] Instance M_bind : MBind M := fun A B f m s =>
  match m s with
  | (Done a, s') => f a s'
  | (Raised e, s') => (Raised e, s')
  end.

(** An expression without effects, as a statement of the method. *)
Definition pure {A} (o : outcome A) : M A := fun s => (o, s).

(** [raise e] *)
Definition raise {A} (e : exception) : M A := fun s => (Raised e, s).

(** [try: body except ...], the clauses given as a partial function from the
    raised exception to the code of the clause that catches it. *)
Definition try_except {A} (body : M A) (clauses : exception -> option (M A)) : M A :=
  fun s =>
    match body s with
    | (Done a, s') => (Done a, s')
    | (Raised e, s') =>
        match clauses e with
        | Some clause => clause s'
        | None => (Raised e, s')
        end
    end.

(** [self] *)
Definition get_self : M EndpointsBuilder := fun s => (Done (this s), s).

Definition on_world (f : World -> World) : M unit :=
  fun s => (Done tt, {| this := this s; world := f (world s) |}).

(** Append a call to the history. *)
Definition record_call (e : event) (w : World) : World :=
  {| integration_requests := integration_requests w;
     last_request_dates := last_request_dates w;
     history := history w ++ [e] |}.

Definition store_request (r : IntegrationRequest) (w : World) : World :=
  {| integration_requests := integration_requests w ++ [r];
     last_request_dates := last_request_dates w;
     history := history w |}.

Definition store_date (route : string) (response_datetime : pyval) (w : World) : World :=
  {| integration_requests := integration_requests w;
     last_request_dates := <[route := response_datetime]> (last_request_dates w);
     history := history w |}.

(** [d[key]]: raises [KeyError] when the key is missing. *)
Definition getitem (d : dict) (key : string) : M pyval :=
  match d !! key with
  | Some v => mret v
  | None => raise (KeyError key)
  end.

(** [frappe.throw(msg, exc, title=title)]: always raises. *)
Definition frappe_throw {A} (msg : string) (exc : throw_exc) (title : string) : M A :=
  raise (Thrown msg exc title).

(** Modelled from the spec: [update_last_request_date] of
    [kenya_compliance/utils.py], which is not part of the sources at hand:
    [updateLastSuccess(timestamp, routeIdentifier)] persists the timestamp of
    the last success under the route. *)
Definition update_last_request_date (response_datetime : pyval) (route : string) : M unit :=
  on_world (fun w => store_date route response_datetime
                       (record_call (UpdateLastRequestDate response_datetime route) w)).

(** Modelled from the spec: [etims_logger.exception] of
    [kenya_compliance/logger.py], which is not part of the sources at hand:
    [logFault(fault, includeTrace)] writes the fault to the diagnostic log. *)
Definition etims_logger_exception (error : transport_error) (exc_info : bool) : M unit :=
  on_world (record_call (LoggerException error exc_info)).

(** [self._success_callback_handler(response)] *)
Definition call_success (handler : success_callback_t) (response : dict) : M unit :=
  on_world (record_call (SuccessCallback response));;
  match handler response with
  | Returns => mret tt
  | Raises e => raise e
  end.

(** [self._error_callback_handler(response, url=..., doctype=...,
    document_name=..., integration_reqeust_name=...)] *)
Definition call_error (handler : error_callback_t) (response : dict) (url : string)
    (doctype : option Doctype) (document_name : option string)
    (integration_reqeust_name : string) : M unit :=
  on_world (record_call
    (ErrorCallback response url doctype document_name integration_reqeust_name));;
  match handler response url doctype document_name integration_reqeust_name with
  | Returns => mret tt
  | Raises e => raise e
  end.

(** The three [except] clauses of [make_remote_call], in source order. *)
Definition except_clauses (e : exception) : option (M unit) :=
  match e with
  | Transport (ClientConnectorError _ as error) =>
      Some (etims_logger_exception error true;;
            frappe_throw "Connection failed" (ErrorInstance error) "Connection Error")
  | Transport (ClientOSError _ as error) =>
      Some (etims_logger_exception error true;;
            frappe_throw "Connection reset by peer" (ErrorInstance error) "Connection Error")
  | Transport (TimeoutError _ as error) =>
      Some (etims_logger_exception error true;;
            frappe_throw "Timeout Encountered" (ErrorInstance error) "Timeout Error")
  | _ => None
  end.

(** [f"/{path.split('/')[-1]}"] *)
Definition route_path_of (path : string) : M string :=
  match Str.last_item (Str.split "/" path) with
  | Some segment => mret ("/" +:+ segment)
  | None => raise IndexError
  end.

Section Dispatch.

(** The two library functions behind the host checks of [urlparse]. *)
Variable ip_address : string -> outcome parse.ip_address_class.
Variable normalize_nfkc : string -> string.

(** The transport, and the name [frappe] gives to the Integration Request
    document it inserts; the source does not say how it is chosen, so it may
    depend on everything there is. *)
Variable make_post_request : string -> option dict -> dict -> post_result.
Variable request_name : World -> string.

(** [create_request_log(data=..., is_remote_request=..., service_name=...,
    request_headers=..., url=..., reference_docname=...,
    reference_doctype=...)]: inserts the document and returns it. *)
Definition create_request_log (data : option dict) (is_remote_request : bool)
    (service_name : string) (request_headers : dict) (url : string)
    (reference_docname : option string) (reference_doctype : option Doctype)
  : M IntegrationRequest :=
  fun s =>
    let r := {| frappe.name := request_name (world s);
                frappe.data := data;
                frappe.is_remote_request := is_remote_request;
                frappe.service_name := service_name;
                frappe.request_headers := request_headers;
                frappe.url := url;
                frappe.reference_docname := reference_docname;
                frappe.reference_doctype := reference_doctype |} in
    (Done r, {| this := this s;
                world := store_request r (record_call (CreateRequestLog r) (world s)) |}).

(** [asyncio.run(make_post_request(url, payload, headers))] *)
Definition run_make_post_request (url : string) (payload : option dict) (headers : dict)
  : M dict :=
  on_world (record_call (MakePostRequest url payload headers));;
  match make_post_request url payload headers with
  | Responds response => mret response
  | Fails error => raise (Transport error)
  end.

(** [EndpointsBuilder.make_remote_call] *)
Definition make_remote_call (doctype : option Doctype) (document_name : option string)
  : M unit :=
  self ← get_self;
  match _url self, _headers self,
        _success_callback_handler self, _error_callback_handler self with
  | Some url, Some headers, Some success_callback_handler, Some error_callback_handler =>
      parsed_url ← pure (parse.urlparse ip_address normalize_nfkc url);
      route_path ← route_path_of (parse.path parsed_url);
      integration_request ←
        create_request_log (_payload self) true "etims" headers url
          document_name doctype;
      try_except
        (response ← run_make_post_request url (_payload self) headers;
         resultCd ← getitem response "resultCd";
         if eq_str resultCd "000" then
           call_success success_callback_handler response;;
           resultDt ← getitem response "resultDt";
           update_last_request_date resultDt route_path
         else
           call_error error_callback_handler response route_path doctype
             document_name (frappe.name integration_request))
        except_clauses
  | _, _, _, _ =>
      frappe_throw "Please check that all required request parameters are supplied."
        MandatoryError "Setup Error"
  end.

End Dispatch.

(** ** Vocabulary of the properties *)

(** The route identifier that [make_remote_call] derives from the parsed
    URL. *)
Definition route_path (parsed_url : parse.ParseResult) : string :=
  "/" +:+ default EmptyString
            (Str.last_item (Str.split "/" (parse.path parsed_url))).

(** [segment] is the last segment of [path]: it holds no slash, and it is
    all of [path] or what follows the last slash of [path]. *)
Definition last_segment (path segment : string) : Prop :=
  Str.contains "/" segment = false
  ∧ (path = segment ∨ ∃ front, path = front +:+ String "/" segment).

(** All four required fields are set. *)
Definition configured (self : EndpointsBuilder) (url : string) (headers : dict)
    (on_success : success_callback_t) (on_error : error_callback_t) : Prop :=
  _url self = Some url ∧ _headers self = Some headers
  ∧ _success_callback_handler self = Some on_success
  ∧ _error_callback_handler self = Some on_error.

(** A required field is unset. *)
Definition unconfigured (self : EndpointsBuilder) : Prop :=
  _url self = None ∨ _headers self = None
  ∨ _success_callback_handler self = None ∨ _error_callback_handler self = None.

(** The calls made between two states. *)
Definition calls_between (before after : state) : list event :=
  drop (length (history (world before))) (history (world after)).

Definition is_request_log (e : event) : bool :=
  match e with CreateRequestLog _ => true | _ => false end.
Definition is_post_request (e : event) : bool :=
  match e with MakePostRequest _ _ _ => true | _ => false end.
Definition is_success_call (e : event) : bool :=
  match e with SuccessCallback _ => true | _ => false end.
Definition is_error_call (e : event) : bool :=
  match e with ErrorCallback _ _ _ _ _ => true | _ => false end.
Definition is_tracker_update (e : event) : bool :=
  match e with UpdateLastRequestDate _ _ => true | _ => false end.
Definition is_logger_call (e : event) : bool :=
  match e with LoggerException _ _ => true | _ => false end.

(** How often a kind of call occurs. *)
Definition count (kind : event -> bool) (calls : list event) : nat :=
  length (List.filter kind calls).

(** The user-visible message and title of each transport fault. *)
Definition fault_message (error : transport_error) : string :=
  match error with
  | ClientConnectorError _ => "Connection failed"
  | ClientOSError _ => "Connection reset by peer"
  | TimeoutError _ => "Timeout Encountered"
  end.

Definition fault_title (error : transport_error) : string :=
  match error with
  | ClientConnectorError _ | ClientOSError _ => "Connection Error"
  | TimeoutError _ => "Timeout Error"
  end.

(** The Integration Request that a dispatch from state [s] creates. *)
Definition audit_record (request_name : World -> string) (s : state) (url : string)
    (headers : dict) (doctype : option Doctype) (document_name : option string)
  : IntegrationRequest :=
  {| frappe.name := request_name (world s);
     frappe.data := _payload (this s);
     frappe.is_remote_request := true;
     frappe.service_name := "etims";
     frappe.request_headers := headers;
     frappe.url := url;
     frappe.reference_docname := document_name;
     frappe.reference_doctype := doctype |}.

(** The state once one more call is on record. *)
Definition add_call (e : event) (s : state) : state :=
  {| this := this s; world := record_call e (world s) |}.

Definition on_self_world (f : World -> World) (s : state) : state :=
  {| this := this s; world := f (world s) |}.

(** The state of a dispatch once the audit record is written. *)
Definition after_audit (request_name : World -> string) (s : state) (url : string)
    (headers : dict) (doctype : option Doctype) (document_name : option string) : state :=
  let r := audit_record request_name s url headers doctype document_name in
  {| this := this s; world := store_request r (record_call (CreateRequestLog r) (world s)) |}.

(** The state of a dispatch once the network call is made. *)
Definition after_post (request_name : World -> string) (s : state) (url : string)
    (headers : dict) (doctype : option Doctype) (document_name : option string) : state :=
  add_call (MakePostRequest url (_payload (this s)) headers)
    (after_audit request_name s url headers doctype document_name).

(** What becomes of an exception raised inside the [try] block. *)
Definition caught (e : exception) (s : state) : outcome unit * state :=
  match except_clauses e with
  | Some clause => clause s
  | None => (Raised e, s)
  end.

(** What becomes of a handler's result inside the [try] block. *)
Definition settle (result : call_result) (s : state) : outcome unit * state :=
  match result with
  | Returns => (Done tt, s)
  | Raises e => caught e s
  end.

(** The calls an exception raised inside the [try] block causes. *)
Definition logged (e : exception) : list event :=
  match e with
  | Transport error => [LoggerException error true]
  | _ => []
  end.

(** The calls one execution of [make_remote_call] makes. *)
Definition calls_made (ip_address : string -> outcome parse.ip_address_class)
    (normalize_nfkc : string -> string)
    (make_post_request : string -> option dict -> dict -> post_result)
    (request_name : World -> string) (doctype : option Doctype)
    (document_name : option string) (s : state) : list event :=
  calls_between s (make_remote_call ip_address normalize_nfkc make_post_request request_name doctype document_name s).2.

(** How many times the handlers are invoked, both taken together. *)
Definition handler_calls (calls : list event) : nat :=
  count is_success_call calls + count is_error_call calls.

(** The network call of an execution raised a transport fault. *)
Definition transport_fault_raised
    (ip_address : string -> outcome parse.ip_address_class)
    (normalize_nfkc : string -> string)
    (make_post_request : string -> option dict -> dict -> post_result)
    (request_name : World -> string) (doctype : option Doctype)
    (document_name : option string) (s : state) : Prop :=
  ∃ url payload headers error,
    MakePostRequest url payload headers
      ∈ calls_made ip_address normalize_nfkc make_post_request request_name doctype document_name s
    ∧ make_post_request url payload headers = Fails error.

(** The operations of the class on an existing object. *)
Inductive operation :=
| GetMethod | SetMethod (new_method : string)
| GetUrl | SetUrl (new_url : option string)
| GetPayload | SetPayload (new_payload : option dict)
| GetError | SetError (new_error : option string)
| GetHeaders | SetHeaders (new_headers : option dict)
| GetSuccessCallback | SetSuccessCallback (callback : option success_callback_t)
| GetErrorCallback | SetErrorCallback (callback : option error_callback_t)
| MakeRemoteCall (doctype : option Doctype) (document_name : option string).

Definition on_self (f : EndpointsBuilder -> EndpointsBuilder) (s : state) : state :=
  {| this := f (this s); world := world s |}.

(** The state an operation leaves behind. *)
Definition perform (ip_address : string -> outcome parse.ip_address_class)
    (normalize_nfkc : string -> string)
    (make_post_request : string -> option dict -> dict -> post_result)
    (request_name : World -> string) (op : operation) (s : state) : state :=
  match op with
  | SetMethod new_method => on_self (set_method new_method) s
  | SetUrl new_url => on_self (set_url new_url) s
  | SetPayload new_payload => on_self (set_payload new_payload) s
  | SetError new_error => on_self (set_error new_error) s
  | SetHeaders new_headers => on_self (set_headers new_headers) s
  | SetSuccessCallback callback => on_self (set_success_callback callback) s
  | SetErrorCallback callback => on_self (set_error_callback callback) s
  | MakeRemoteCall doctype document_name =>
      (make_remote_call ip_address normalize_nfkc make_post_request request_name doctype document_name s).2
  | GetMethod | GetUrl | GetPayload | GetError | GetHeaders
  | GetSuccessCallback | GetErrorCallback => s
  end.

Definition is_error_setter (op : operation) : bool :=
  match op with SetError _ => true | _ => false end.

(** The verbs the class spells out: the default of [__init__] and the
    values of the setter's annotation. *)
Definition enumerated_verbs : list string := "POST"%string :: setter_literals.

(** The configured method can be read off every audit record and every
    network call of a dispatch. *)
Definition method_reaches_collaborators : Prop :=
  ∃ (recorded : IntegrationRequest -> string)
    (sent : string -> option dict -> dict -> string),
  ∀ ip_address normalize_nfkc make_post_request request_name doctype document_name s
    url headers on_success on_error,
    configured (this s) url headers on_success on_error ->
    Forall (fun e =>
              match e with
              | CreateRequestLog r => recorded r = _method (this s)
              | MakePostRequest u p h => sent u p h = _method (this s)
              | _ => True
              end)
           (calls_made ip_address normalize_nfkc make_post_request request_name doctype document_name s).

(** [urlsplit] lets [netloc] pass: the bracket checks and [_checknetloc]
    return. *)
Definition netloc_accepted (ip_address : string -> outcome parse.ip_address_class)
    (normalize_nfkc : string -> string) (netloc : string) : Prop :=
  (Str.contains "[" netloc && negb (Str.contains "]" netloc))
  || (Str.contains "]" netloc && negb (Str.contains "[" netloc)) = false
  ∧ (if Str.contains "[" netloc && Str.contains "]" netloc
     then parse._check_bracketed_netloc ip_address netloc
     else Done tt) = Done tt
  ∧ parse._checknetloc normalize_nfkc netloc = Done tt.

(** The dispatch derives a route identifier from [url]. *)
Definition derives_route (ip_address : string -> outcome parse.ip_address_class)
    (normalize_nfkc : string -> string) (url : string) (route : string) : Prop :=
  ∃ parsed_url, parse.urlparse ip_address normalize_nfkc url = Done parsed_url
                ∧ ∀ s, route_path_of (parse.path parsed_url) s = (Done route, s).

(** ** Sequences of operations *)

(** The state after a list of operations, performed from left to right. *)
Definition perform_all (ip_address : string -> outcome parse.ip_address_class)
    (normalize_nfkc : string -> string)
    (make_post_request : string -> option dict -> dict -> post_result)
    (request_name : World -> string) (ops : list operation) (s : state) : state :=
  fold_left (fun s' op => perform ip_address normalize_nfkc make_post_request request_name op s') ops s.

(** What an operation assigns to a field, when it is that field's setter. *)
Definition method_set (op : operation) : option string :=
  match op with SetMethod new_method => Some new_method | _ => None end.
Definition url_set (op : operation) : option (option string) :=
  match op with SetUrl new_url => Some new_url | _ => None end.
Definition payload_set (op : operation) : option (option dict) :=
  match op with SetPayload new_payload => Some new_payload | _ => None end.
Definition error_set (op : operation) : option (option string) :=
  match op with SetError new_error => Some new_error | _ => None end.
Definition headers_set (op : operation) : option (option dict) :=
  match op with SetHeaders new_headers => Some new_headers | _ => None end.
Definition success_callback_set (op : operation) : option (option success_callback_t) :=
  match op with SetSuccessCallback callback => Some callback | _ => None end.
Definition error_callback_set (op : operation) : option (option error_callback_t) :=
  match op with SetErrorCallback callback => Some callback | _ => None end.

(** What the last setter of a kind among [ops] assigns. *)
Definition last_set {A} (set : operation -> option A) (ops : list operation) : option A :=
  last (omap set ops).

Definition is_dispatch (op : operation) : bool :=
  match op with MakeRemoteCall _ _ => true | _ => false end.

(** ** URLs of endpoints *)

(** No character of [s] is one of [chars]. *)
Definition free_of (chars : string) (s : string) : bool :=
  Str.all (fun c => negb (Str.contains c chars)) s.

(** [s] holds no tab, carriage return or line feed. *)
Definition one_line (s : string) : bool :=
  Str.all (fun c => negb (parse.unsafe_url_byte c)) s.

(** [s] can stand before the colon of a URL: it starts with a letter and
    holds letters, digits, [+], [-] and [.] only. *)
Definition scheme_name (s : string) : bool :=
  match s with
  | String a _ => Str.is_alpha a && Str.all parse.scheme_char s
  | EmptyString => false
  end.


(** ** Sample inputs *)

Module Sample.

Definition endpoint : string := "https://host/api/v1/endpointName".

Definition request_headers : dict := {[ "Content-Type" := PyStr "application/json" ]}.

Definition request_payload : dict := {[ "lastReqDt" := PyStr "20240101000000" ]}.

Definition ok_response : dict :=
  {[ "resultCd" := PyStr "000"; "resultMsg" := PyStr "It is succeeded";
     "resultDt" := PyStr "20240102030405" ]}.

Definition error_response : dict :=
  {[ "resultCd" := PyStr "910"; "resultMsg" := PyStr "Request parameter error" ]}.

Definition on_success : success_callback_t := fun _ => Returns.

Definition failing_on_success : success_callback_t :=
  fun _ => Raises (OtherException "ValidationError").

Definition on_error : error_callback_t := fun _ _ _ _ _ => Returns.

Definition responds (response : dict) : string -> option dict -> dict -> post_result :=
  fun _ _ _ => Responds response.

Definition fails (error : transport_error) : string -> option dict -> dict -> post_result :=
  fun _ _ _ => Fails error.

Definition request_name (w : World) : string := "a1b2c3d4e5".

(** An [ip_address] that knows the loopback address only. *)
Definition ip_address (hostname : string) : outcome parse.ip_address_class :=
  if String.eqb hostname "::1" then Done parse.IPv6Address
  else Raised (ValueError ("'" +:+ hostname
                           +:+ "' does not appear to be an IPv4 or IPv6 address")).

Definition normalize_nfkc (n : string) : string := n.

Definition builder_with (handler : success_callback_t) : EndpointsBuilder :=
  set_error_callback (Some on_error)
    (set_success_callback (Some handler)
       (set_headers (Some request_headers)
          (set_payload (Some request_payload) (set_url (Some endpoint) init)))).

Definition builder : EndpointsBuilder := builder_with on_success.

Definition nothing : World :=
  {| integration_requests := []; last_request_dates := ∅; history := [] |}.

Definition start (self : EndpointsBuilder) : state :=
  {| this := self; world := nothing |}.

Definition doctype : option Doctype := Some (DoctypeName "Sales Invoice").
Definition document_name : option string := Some "SINV-0001".

End Sample.

(** ** More sample inputs *)

Module Scenario.

Definition rejecting_on_error : error_callback_t :=
  fun _ _ _ _ _ => Raises (OtherException "ValidationError").

Definition retrying_on_error : error_callback_t :=
  fun _ _ _ _ _ => Raises (Transport (TimeoutError "retry timed out")).

Definition builder_with_error_handler (handler : error_callback_t) : EndpointsBuilder :=
  set_error_callback (Some handler) Sample.builder.

Definition no_code_response : dict := {[ "resultMsg" := PyStr "Service unavailable" ]}.

Definition no_timestamp_response : dict :=
  {[ "resultCd" := PyStr "000"; "resultMsg" := PyStr "It is succeeded" ]}.

(** A world in which earlier dispatches have left their marks. *)
Definition used : World :=
  {| integration_requests := [];
     last_request_dates := {[ "/selectItemList" := PyStr "20231231235959" ]};
     history := [UpdateLastRequestDate (PyStr "20231231235959") "/selectItemList"] |}.

(** A URL with an opening bracket in the host and no closing one. *)
Definition bad_url : string := "http://[::1/x]".

Definition builder_with_url (url : string) : EndpointsBuilder :=
  set_url (Some url) Sample.builder.

End Scenario.

(** ** Proof steps *)

(** Case analysis on an exception: the three transport errors, then the
    other classes. *)
Ltac by_exception e := destruct e as [[?|?|?]| | | | |].

(** Go through a membership in an explicit list of calls, dropping the
    elements that cannot be the one looked for. *)
Ltac in_calls H :=
  repeat (apply elem_of_cons in H as [H | H]; [try discriminate H|]);
  try (by apply elem_of_nil in H).

(** ** Splitting and the route identifier *)

Lemma split_not_nil c s : Str.split c s ≠ [].
Proof.
  destruct s as [|a s]; simpl; [done|].
  destruct (Ascii.eqb a c); [done|]. by destruct (Str.split c s).
Qed.

(** No piece of a split holds the separator. *)
Lemma split_pieces_clean c s :
  Forall (fun piece => Str.contains c piece = false) (Str.split c s).
Proof.
  induction s as [|a s IH]; simpl.
  - by repeat constructor.
  - destruct (Ascii.eqb a c) eqn:Hac.
    + by constructor.
    + destruct (Str.split c s) as [|piece pieces]; simpl.
      * repeat constructor. simpl. by rewrite Hac.
      * inversion IH; subst. constructor; [|done]. simpl. by rewrite Hac.
Qed.

(** Joining the pieces gives the string back. *)
Lemma join_split c s : Str.join c (Str.split c s) = s.
Proof.
  induction s as [|a s IH]; simpl; [done|].
  destruct (Ascii.eqb a c) eqn:Hac.
  - apply Ascii.eqb_eq in Hac. subst a.
    pose proof (split_not_nil c s) as Hne.
    destruct (Str.split c s) as [|piece pieces]; [done|].
    simpl in *. by rewrite IH.
  - pose proof (split_not_nil c s) as Hne.
    destruct (Str.split c s) as [|piece pieces]; [done|].
    destruct pieces as [|next pieces]; simpl in *; by rewrite <- IH.
Qed.

Lemma append_assoc_cons (a b : string) c d :
  (a +:+ String c b) +:+ d = a +:+ String c (b +:+ d).
Proof.
  induction a as [|x a IH]; [done|].
  change (String x ((a +:+ String c b) +:+ d) = String x (a +:+ String c (b +:+ d))).
  by rewrite IH.
Qed.

(** A joined list ends in its last piece, after a separator if there is
    more than one piece. *)
Lemma join_last c pieces segment :
  last pieces = Some segment →
  Str.join c pieces = segment
  ∨ ∃ front, Str.join c pieces = front +:+ String c segment.
Proof.
  induction pieces as [|piece rest IH]; [done|].
  destruct rest as [|next rest].
  - simpl. intros [= ->]. by left.
  - intros Hlast. right.
    change (last (piece :: next :: rest)) with (last (next :: rest)) in Hlast.
    change (Str.join c (piece :: next :: rest))
      with (piece +:+ String c (Str.join c (next :: rest))).
    destruct (IH Hlast) as [-> | [front ->]].
    + by exists piece.
    + exists (piece +:+ String c front). by rewrite append_assoc_cons.
Qed.

Lemma split_last_segment c s :
  ∃ segment, Str.last_item (Str.split c s) = Some segment
             ∧ Str.contains c segment = false
             ∧ (s = segment ∨ ∃ front, s = front +:+ String c segment).
Proof.
  unfold Str.last_item.
  destruct (last (Str.split c s)) as [segment|] eqn:Hlast.
  - exists segment. split; [done|]. split.
    + pose proof (split_pieces_clean c s) as Hclean.
      rewrite Forall_forall in Hclean. apply Hclean.
      apply last_Some in Hlast as [front ->]. set_solver.
    + destruct (join_last c _ _ Hlast) as [Hjoin | [front Hjoin]];
        rewrite join_split in Hjoin; [by left | right; by exists front].
  - apply last_None in Hlast. by destruct (split_not_nil c s).
Qed.

(** The subscript [[-1]] never raises here. *)
Lemma route_path_of_total (parsed_url : parse.ParseResult) (s : state) :
  route_path_of (parse.path parsed_url) s = (Done (route_path parsed_url), s).
Proof.
  unfold route_path_of, route_path.
  destruct (split_last_segment "/" (parse.path parsed_url)) as (segment & -> & _). done.
Qed.

(** ** Facts about strings and the steps of [urlsplit] *)

Lemma app_cons (a : ascii) (s t : string) : String a s +:+ t = String a (s +:+ t).
Proof. reflexivity. Qed.

Lemma app_empty_l (t : string) : "" +:+ t = t.
Proof. reflexivity. Qed.

Lemma app_empty_r (s : string) : s +:+ "" = s.
Proof. induction s as [|a s IH]; [done|]. by rewrite app_cons, IH. Qed.

Lemma len_app (a b : string) : Str.len (a +:+ b) = Str.len a + Str.len b.
Proof.
  unfold Str.len. induction a as [|x a IH]; [done|].
  rewrite app_cons. simpl String.length. lia.
Qed.

Lemma len_nonneg (s : string) : 0 ≤ Str.len s.
Proof. unfold Str.len. lia. Qed.

Lemma split_app c (a b : string) :
  Str.split c (a +:+ String c b) = Str.split c a ++ Str.split c b.
Proof.
  induction a as [|x a IH].
  - rewrite app_empty_l. simpl. by rewrite Ascii.eqb_refl.
  - rewrite app_cons. simpl. destruct (Ascii.eqb x c); rewrite IH; [done|].
    pose proof (split_not_nil c a) as Hne.
    by destruct (Str.split c a).
Qed.

Lemma split_free c (s : string) : Str.contains c s = false → Str.split c s = [s].
Proof.
  induction s as [|x s IH]; [done|]. simpl.
  destruct (Ascii.eqb x c); [done|]. intros Hfree. by rewrite IH.
Qed.

Lemma last_item_last_segment (path segment : string) :
  last_segment path segment → Str.last_item (Str.split "/" path) = Some segment.
Proof.
  intros (Hfree & [-> | (front & ->)]); unfold Str.last_item.
  - by rewrite split_free.
  - by rewrite split_app, (split_free "/" segment Hfree), last_snoc.
Qed.

Lemma contains_app c (a b : string) :
  Str.contains c (a +:+ b) = Str.contains c a || Str.contains c b.
Proof.
  induction a as [|x a IH]; [done|]. rewrite app_cons. simpl.
  by destruct (Ascii.eqb x c).
Qed.

Lemma all_app p (a b : string) : Str.all p (a +:+ b) = Str.all p a && Str.all p b.
Proof.
  induction a as [|x a IH]; [done|]. rewrite app_cons. simpl.
  rewrite IH. by destruct (p x).
Qed.

Lemma all_weaken (p q : ascii -> bool) (s : string) :
  (∀ c, p c = true → q c = true) → Str.all p s = true → Str.all q s = true.
Proof.
  intros Hpq. induction s as [|x s IH]; [done|]. simpl.
  intros [Hx Hs]%andb_true_iff. by rewrite (Hpq x Hx), IH.
Qed.

Lemma filter_all keep (s : string) : Str.all keep s = true → Str.filter keep s = s.
Proof.
  induction s as [|x s IH]; [done|]. simpl.
  intros [-> Hs]%andb_true_iff. by rewrite IH.
Qed.

Lemma free_of_contains chars (s : string) c :
  free_of chars s = true → Str.contains c chars = true → Str.contains c s = false.
Proof.
  unfold free_of. intros Hfree Hc. induction s as [|x s IH]; [done|].
  simpl in *. apply andb_true_iff in Hfree as [Hx Hs].
  destruct (Ascii.eqb_spec x c) as [-> | _]; [|by apply IH].
  by rewrite Hc in Hx.
Qed.

Lemma find_aux_app c (a b : string) pos :
  Str.contains c a = false →
  Str.find_aux c (a +:+ b) pos = Str.find_aux c b (pos + Str.len a).
Proof.
  revert pos. induction a as [|x a IH]; intros pos.
  - intros _. rewrite app_empty_l. f_equal. unfold Str.len. simpl. lia.
  - rewrite app_cons. simpl. destruct (Ascii.eqb x c); [done|].
    intros Hfree. rewrite IH by done. f_equal. unfold Str.len. simpl String.length. lia.
Qed.

Lemma find_aux_range c (b : string) pos :
  Str.find_aux c b pos = -1 ∨ pos ≤ Str.find_aux c b pos.
Proof.
  revert pos. induction b as [|x b IH]; intros pos; simpl; [by left|].
  destruct (Ascii.eqb x c); [right; lia|].
  destruct (IH (pos + 1)) as [-> | Hle]; [by left | right; lia].
Qed.

Lemma bound_in_range i (s : string) : 0 ≤ i ≤ Str.len s → Str.bound i s = Z.to_nat i.
Proof.
  intros [Hlo Hhi]. unfold Str.bound.
  destruct (Z.ltb_spec i 0); [lia|]. f_equal. lia.
Qed.

Lemma take_app (a b : string) : Str.take (String.length a) (a +:+ b) = a.
Proof.
  induction a as [|x a IH].
  - rewrite app_empty_l. by destruct b.
  - rewrite app_cons. simpl. by rewrite IH.
Qed.

Lemma drop_app (a b : string) : Str.drop (String.length a) (a +:+ b) = b.
Proof. induction a as [|x a IH]; [done|]. by rewrite app_cons. Qed.

Lemma slice_to_app (a b : string) : Str.slice_to (Str.len a) (a +:+ b) = a.
Proof.
  unfold Str.slice_to. rewrite bound_in_range.
  - unfold Str.len. rewrite Nat2Z.id. apply take_app.
  - rewrite len_app. pose proof (len_nonneg a). pose proof (len_nonneg b). lia.
Qed.

Lemma slice_from_app (a b : string) : Str.slice_from (Str.len a) (a +:+ b) = b.
Proof.
  unfold Str.slice_from. rewrite bound_in_range.
  - unfold Str.len. rewrite Nat2Z.id. apply drop_app.
  - rewrite len_app. pose proof (len_nonneg a). pose proof (len_nonneg b). lia.
Qed.

Lemma before_app c (a b : string) :
  Str.contains c a = false → Str.before c (a +:+ String c b) = a.
Proof.
  induction a as [|x a IH].
  - intros _. rewrite app_empty_l. simpl. by rewrite Ascii.eqb_refl.
  - rewrite app_cons. simpl. destruct (Ascii.eqb x c); [done|].
    intros Hfree. by rewrite IH.
Qed.

Lemma before_free c (s : string) : Str.contains c s = false → Str.before c s = s.
Proof.
  induction s as [|x s IH]; [done|]. simpl.
  destruct (Ascii.eqb x c); [done|]. intros Hfree. by rewrite IH.
Qed.

(** The search of [_splitnetloc] starts behind the two slashes. *)
Lemma find_from_authority c (rest : string) :
  Str.find_from c 2 ("//" +:+ rest) = Str.find_aux c rest 2.
Proof.
  unfold Str.find_from.
  assert (Str.len ("//" +:+ rest) = 2 + Str.len rest) as Hlen by apply len_app.
  pose proof (len_nonneg rest).
  change (2 <? 0) with false. cbv iota.
  destruct (Z.ltb_spec (Str.len ("//" +:+ rest)) 2); [lia|].
  unfold Str.slice_from. by rewrite bound_in_range by lia.
Qed.

(** [_splitnetloc] cuts the host off at the first of [/], [?] and [#]. *)
Lemma splitnetloc_authority (host rest : string) :
  free_of "/?#" host = true →
  (rest = "" ∨ ∃ d t, rest = String d t ∧ Str.contains d "/?#" = true) →
  parse._splitnetloc ("//" +:+ host +:+ rest) 2 = (host, rest).
Proof.
  intros Hhost Hrest.
  assert (Str.len ("//" +:+ host +:+ rest) = 2 + Str.len host + Str.len rest) as Hlen.
  { rewrite !len_app. unfold Str.len. simpl. lia. }
  pose proof (len_nonneg host) as Hh. pose proof (len_nonneg rest) as Hr.
  unfold parse._splitnetloc. cbn [fold_left].
  rewrite !find_from_authority.
  rewrite !find_aux_app by (apply (free_of_contains "/?#"); done).
  assert ((let step := fun (delim : Z) (w : Z) => if 0 <=? w then Z.min delim w else delim in
           step (step (step (Str.len ("//" +:+ host +:+ rest))
                         (Str.find_aux "/" rest (2 + Str.len host)))
                   (Str.find_aux "?" rest (2 + Str.len host)))
             (Str.find_aux "#" rest (2 + Str.len host)))
          = 2 + Str.len host) as Hdelim.
  { cbv zeta. rewrite Hlen.
    destruct Hrest as [-> | (d & t & -> & Hd)].
    - simpl. unfold Str.len. simpl. lia.
    - pose proof (find_aux_range "/" (String d t) (2 + Str.len host)) as H1.
      pose proof (find_aux_range "?" (String d t) (2 + Str.len host)) as H2.
      pose proof (find_aux_range "#" (String d t) (2 + Str.len host)) as H3.
      assert (Str.find_aux "/" (String d t) (2 + Str.len host) = 2 + Str.len host
              ∨ Str.find_aux "?" (String d t) (2 + Str.len host) = 2 + Str.len host
              ∨ Str.find_aux "#" (String d t) (2 + Str.len host) = 2 + Str.len host)
        as Hfound.
      { cbn [Str.contains] in Hd. cbn [Str.find_aux].
        destruct (Ascii.eqb_spec "/" d) as [<- | _]; [by left|].
        destruct (Ascii.eqb_spec "?" d) as [<- | _]; [by right; left|].
        destruct (Ascii.eqb_spec "#" d) as [<- | _]; [by right; right | done]. }
      repeat match goal with
             | |- context [0 <=? ?w] => destruct (Z.leb_spec 0 w)
             end; lia. }
  cbv zeta in Hdelim. rewrite Hdelim.
  unfold Str.slice, Str.slice_from.
  rewrite !bound_in_range by lia.
  replace (Z.to_nat (2 + Str.len host)) with (S (S (String.length host)))
    by (unfold Str.len; lia).
  change (Z.to_nat 2) with 2%nat.
  replace (S (S (String.length host)) - 2)%nat with (String.length host) by lia.
  change (Str.drop 2 ("//" +:+ host +:+ rest)) with (host +:+ rest).
  change (Str.drop (S (S (String.length host))) ("//" +:+ host +:+ rest))
    with (Str.drop (String.length host) (host +:+ rest)).
  by rewrite take_app, drop_app.
Qed.

Lemma scheme_char_safe c :
  parse.scheme_char c = true → negb (parse.unsafe_url_byte c) = true.
Proof. by destruct c as [[|] [|] [|] [|] [|] [|] [|] [|]]. Qed.

Lemma alpha_not_stripped c :
  Str.is_alpha c = true → parse.c0_control_or_space c = false.
Proof. by destruct c as [[|] [|] [|] [|] [|] [|] [|] [|]]. Qed.

Lemma all_contains p (s : string) c :
  Str.all p s = true → p c = false → Str.contains c s = false.
Proof.
  intros Hall Hc. induction s as [|x s IH]; [done|].
  simpl in *. apply andb_true_iff in Hall as [Hx Hs].
  destruct (Ascii.eqb_spec x c) as [-> | _]; [congruence | by apply IH].
Qed.

(** What [urlsplit] does up to and including the scheme, on a URL that
    starts with a scheme name and a colon. *)
Lemma urlsplit_scheme (sch rest : string) :
  scheme_name sch = true →
  one_line rest = true →
  Str.lstrip parse.c0_control_or_space (sch +:+ String ":" rest) = sch +:+ String ":" rest
  ∧ Str.filter (fun c => negb (parse.unsafe_url_byte c)) (sch +:+ String ":" rest)
    = sch +:+ String ":" rest
  ∧ Str.find ":" (sch +:+ String ":" rest) = Str.len sch
  ∧ (0 <? Str.len sch) = true
  ∧ match sch +:+ String ":" rest with
    | String a _ => Str.is_alpha a
    | EmptyString => false
    end = true
  ∧ Str.slice_to (Str.len sch) (sch +:+ String ":" rest) = sch
  ∧ Str.all parse.scheme_char sch = true
  ∧ Str.slice_from (Str.len sch + 1) (sch +:+ String ":" rest) = rest.
Proof.
  intros Hsch Hrest.
  destruct sch as [|a sch]; [done|].
  apply andb_true_iff in Hsch as [Halpha Hchars].
  assert (Str.contains ":" (String a sch) = false) as Hcolon
    by (by apply (all_contains parse.scheme_char)).
  split; [|split; [|split; [|split; [|split; [|split; [|split]]]]]].
  - rewrite app_cons. simpl. by rewrite alpha_not_stripped.
  - apply filter_all. rewrite all_app. apply andb_true_iff. split.
    + by apply (all_weaken parse.scheme_char), Hchars; apply scheme_char_safe.
    + done.
  - unfold Str.find. rewrite find_aux_app by done.
    cbn [Str.find_aux]. by rewrite Ascii.eqb_refl.
  - unfold Str.len. simpl String.length. apply Z.ltb_lt. lia.
  - by rewrite app_cons.
  - apply slice_to_app.
  - done.
  - replace (String a sch +:+ String ":" rest)
      with ((String a sch +:+ ":") +:+ rest) by apply append_assoc_cons.
    replace (Str.len (String a sch) + 1) with (Str.len (String a sch +:+ ":"))
      by (rewrite len_app; done).
    apply slice_from_app.
Qed.

Lemma free_of_path (path : string) : free_of "?#;" path = true → free_of "?#" path = true.
Proof.
  apply all_weaken. intros c. cbn [Str.contains].
  by destruct (Ascii.eqb "?" c), (Ascii.eqb "#" c).
Qed.

Lemma free_of_weaken (chars chars' : string) (s : string) :
  (∀ c, Str.contains c chars' = true → Str.contains c chars = true) →
  free_of chars s = true → free_of chars' s = true.
Proof.
  intros Hsub. apply all_weaken. intros c Hc.
  destruct (Str.contains c chars') eqn:Hc'; [|done].
  by rewrite (Hsub c Hc') in Hc.
Qed.

Lemma free_of_app chars (a b : string) :
  free_of chars (a +:+ b) = free_of chars a && free_of chars b.
Proof. apply all_app. Qed.

Lemma rfind_aux_free c (s : string) pos best :
  Str.contains c s = false → Str.rfind_aux c s pos best = best.
Proof.
  revert pos best. induction s as [|x s IH]; intros pos best; [done|].
  simpl. destruct (Ascii.eqb x c); [done|]. apply IH.
Qed.

Lemma rfind_aux_app c (a segment : string) pos best :
  Str.contains c segment = false →
  Str.rfind_aux c (a +:+ String c segment) pos best = pos + Str.len a.
Proof.
  intros Hfree. revert pos best. induction a as [|x a IH]; intros pos best.
  - rewrite app_empty_l. cbn [Str.rfind_aux]. rewrite Ascii.eqb_refl.
    rewrite rfind_aux_free by done. unfold Str.len. simpl. lia.
  - rewrite app_cons. cbn [Str.rfind_aux]. rewrite IH.
    unfold Str.len. simpl String.length. lia.
Qed.

Lemma find_from_at c (front rest : string) :
  Str.find_from c (Str.len front) (front +:+ rest) = Str.find_aux c rest (Str.len front).
Proof.
  unfold Str.find_from.
  pose proof (len_nonneg front). pose proof (len_nonneg rest).
  pose proof (len_app front rest) as Hlen.
  destruct (Z.ltb_spec (Str.len front) 0); [lia|].
  destruct (Z.ltb_spec (Str.len (front +:+ rest)) (Str.len front)); [lia|].
  rewrite slice_from_app, bound_in_range by lia.
  f_equal. lia.
Qed.

(** [_splitparams] cuts the path at the first semicolon of its last
    segment. *)
Lemma splitparams_last_segment (front name params : string) :
  free_of "/;" name = true →
  free_of "/" params = true →
  parse._splitparams (front +:+ String "/" (name +:+ String ";" params))
  = (front +:+ String "/" name, params).
Proof.
  intros Hname Hparams.
  assert (Str.contains "/" name = false) as Hname_slash
    by (by apply (free_of_contains "/;")).
  assert (Str.contains ";" name = false) as Hname_semi
    by (by apply (free_of_contains "/;")).
  assert (Str.contains "/" params = false) as Hparams_slash
    by (by apply (free_of_contains "/")).
  unfold parse._splitparams.
  assert (Str.contains "/" (front +:+ String "/" (name +:+ String ";" params)) = true)
    as ->.
  { rewrite contains_app. cbn [Str.contains]. rewrite Ascii.eqb_refl.
    apply orb_true_r. }
  assert (Str.rfind "/" (front +:+ String "/" (name +:+ String ";" params))
          = Str.len front) as ->.
  { unfold Str.rfind. rewrite rfind_aux_app; [lia|].
    rewrite contains_app. cbn [Str.contains]. rewrite Hname_slash, Hparams_slash.
    by change (Ascii.eqb ";" "/") with false. }
  rewrite find_from_at. cbn [Str.find_aux].
  change (Ascii.eqb "/" ";") with false. cbv iota.
  rewrite find_aux_app by done. cbn [Str.find_aux]. rewrite Ascii.eqb_refl.
  pose proof (len_nonneg front). pose proof (len_nonneg name).
  destruct (Z.ltb_spec (Str.len front + 1 + Str.len name) 0); [lia|].
  replace (front +:+ String "/" (name +:+ String ";" params))
    with ((front +:+ String "/" name) +:+ String ";" params)
    by (by rewrite !append_assoc_cons).
  replace (Str.len front + 1 + Str.len name) with (Str.len (front +:+ String "/" name)).
  2:{ rewrite len_app. unfold Str.len. simpl String.length. lia. }
  rewrite slice_to_app. f_equal.
  replace ((front +:+ String "/" name) +:+ String ";" params)
    with (((front +:+ String "/" name) +:+ ";") +:+ params)
    by (by rewrite (append_assoc_cons (front +:+ String "/" name) "")).
  replace (Str.len (front +:+ String "/" name) + 1)
    with (Str.len ((front +:+ String "/" name) +:+ ";"))
    by (by rewrite (len_app _ ";")).
  apply slice_from_app.
Qed.

Lemma free_of_cons chars x (s : string) :
  free_of chars (String x s) = negb (Str.contains x chars) && free_of chars s.
Proof. reflexivity. Qed.

(** ** [urlsplit] and [urlparse] on the URL of an endpoint *)

Section UrlsOfEndpoints.

Variable ip_address : string -> outcome parse.ip_address_class.
Variable normalize_nfkc : string -> string.

(** What [urlsplit] does on [scheme://host...] up to the checks of the
    host: the scheme and the host are cut off, and the checks are still to
    run. *)
Lemma urlsplit_authority (sch host rest : string) :
  scheme_name sch = true →
  free_of "/?#" host = true →
  one_line (host +:+ rest) = true →
  (rest = "" ∨ ∃ d t, rest = String d t ∧ Str.contains d "/?#" = true) →
  parse.urlsplit ip_address normalize_nfkc (sch +:+ "://" +:+ host +:+ rest)
  = ('(netloc, url) ←
       (if (Str.contains "[" host && negb (Str.contains "]" host))
           || (Str.contains "]" host && negb (Str.contains "[" host))
        then Raised (ValueError "Invalid IPv6 URL")
        else
          (if Str.contains "[" host && Str.contains "]" host
           then parse._check_bracketed_netloc ip_address host
           else Done tt);;
          Done (host, rest));
     let '(url, fragment) :=
       if Str.contains "#" url then (Str.before "#" url, Str.after "#" url)
       else (url, EmptyString) in
     let '(url, query) :=
       if Str.contains "?" url then (Str.before "?" url, Str.after "?" url)
       else (url, EmptyString) in
     parse._checknetloc normalize_nfkc netloc;;
     Done {| parse.split_scheme := Str.lower sch; parse.split_netloc := netloc;
             parse.split_path := url; parse.split_query := query;
             parse.split_fragment := fragment |}).
Proof.
  intros Hsch Hhost Hline Hrest.
  change (sch +:+ "://" +:+ host +:+ rest)
    with (sch +:+ String ":" ("//" +:+ host +:+ rest)).
  destruct (urlsplit_scheme sch ("//" +:+ host +:+ rest) Hsch)
    as (Hstrip & Hfilter & Hfind & Hpos & Hfirst & Hto & Hchars & Hfrom); [done|].
  unfold parse.urlsplit. cbv zeta.
  rewrite Hstrip, Hfilter, Hfind, Hpos, Hfirst, Hto, Hchars, Hfrom.
  cbn [andb]. cbv iota.
  change (Str.slice_to 2 ("//" +:+ host +:+ rest))
    with (Str.take (Str.bound 2 ("//" +:+ host +:+ rest)) ("//" +:+ host +:+ rest)).
  rewrite bound_in_range.
  2:{ rewrite len_app. pose proof (len_nonneg (host +:+ rest)).
      unfold Str.len at 1. simpl String.length. lia. }
  change (Str.take (Z.to_nat 2) ("//" +:+ host +:+ rest)) with "//".
  change (String.eqb "//" "//") with true. cbv iota.
  by rewrite (splitnetloc_authority host rest Hhost Hrest).
Qed.

(** What can follow the host of the URL of an endpoint. *)
Lemma rest_of_endpoint (path suffix : string) :
  (path = "" ∨ ∃ p, path = String "/" p) →
  (suffix = "" ∨ ∃ t, suffix = String "?" t ∨ suffix = String "#" t) →
  path +:+ suffix = ""
  ∨ ∃ d t, path +:+ suffix = String d t ∧ Str.contains d "/?#" = true.
Proof.
  intros [-> | (p & ->)] Hsuffix.
  - rewrite app_empty_l.
    destruct Hsuffix as [-> | (t & [-> | ->])]; [by left | right; by eexists _, _ ..].
  - right. rewrite app_cons. by eexists _, _.
Qed.

(** The path ends where the query or the fragment starts. *)
Lemma path_before_suffix (path suffix : string) :
  free_of "?#" path = true →
  (suffix = "" ∨ ∃ t, suffix = String "?" t ∨ suffix = String "#" t) →
  Str.before "?" (Str.before "#" (path +:+ suffix)) = path.
Proof.
  intros Hpath Hsuffix.
  assert (Str.contains "#" path = false) as Hhash
    by (by apply (free_of_contains "?#")).
  assert (Str.contains "?" path = false) as Hquestion
    by (by apply (free_of_contains "?#")).
  destruct Hsuffix as [-> | (t & [-> | ->])].
  - rewrite app_empty_r.
    by rewrite (before_free "#" path Hhash), (before_free "?" path Hquestion).
  - assert (Str.before "#" (path +:+ String "?" t)
            = path +:+ String "?" (Str.before "#" t)) as ->.
    { clear -Hhash. induction path as [|x path IH]; [done|].
      rewrite !app_cons. cbn [Str.before Str.contains] in *.
      destruct (Ascii.eqb x "#"); [done|]. by rewrite IH. }
    by apply before_app.
  - rewrite before_app by done. by apply before_free.
Qed.

(** The components [urlsplit] finds in the URL of an endpoint whose host
    passes the checks. *)
Lemma urlsplit_endpoint (sch host path suffix : string) :
  scheme_name sch = true →
  free_of "/?#" host = true →
  netloc_accepted ip_address normalize_nfkc host →
  free_of "?#" path = true →
  one_line (host +:+ path +:+ suffix) = true →
  (path = "" ∨ ∃ p, path = String "/" p) →
  (suffix = "" ∨ ∃ t, suffix = String "?" t ∨ suffix = String "#" t) →
  ∃ query fragment,
    parse.urlsplit ip_address normalize_nfkc (sch +:+ "://" +:+ host +:+ path +:+ suffix)
    = Done {| parse.split_scheme := Str.lower sch; parse.split_netloc := host;
              parse.split_path := path; parse.split_query := query;
              parse.split_fragment := fragment |}.
Proof.
  intros Hsch Hhost (Hbalanced & Hbracketed & Hchecked) Hpath Hline Hpath_shape
    Hsuffix_shape.
  pose proof (path_before_suffix path suffix Hpath Hsuffix_shape) as Hbefore.
  rewrite (urlsplit_authority sch host (path +:+ suffix) Hsch Hhost Hline
             (rest_of_endpoint path suffix Hpath_shape Hsuffix_shape)).
  rewrite Hbalanced, Hbracketed. unfold mbind, outcome_bind.
  destruct (Str.contains "#" (path +:+ suffix)) eqn:Hc1; cbv iota beta;
    try rewrite (before_free "#" _ Hc1) in Hbefore;
    (destruct (Str.contains "?" _) eqn:Hc2; cbv iota beta;
     try rewrite (before_free "?" _ Hc2) in Hbefore);
    rewrite Hchecked, Hbefore; by eexists _, _.
Qed.

(** A host with one kind of bracket only makes [urlsplit] raise. *)
Lemma urlsplit_unbalanced (sch host rest : string) :
  scheme_name sch = true →
  free_of "/?#" host = true →
  one_line (host +:+ rest) = true →
  (rest = "" ∨ ∃ d t, rest = String d t ∧ Str.contains d "/?#" = true) →
  Str.contains "[" host ≠ Str.contains "]" host →
  parse.urlsplit ip_address normalize_nfkc (sch +:+ "://" +:+ host +:+ rest)
  = Raised (ValueError "Invalid IPv6 URL").
Proof.
  intros Hsch Hhost Hline Hrest Hbrackets.
  rewrite (urlsplit_authority sch host rest Hsch Hhost Hline Hrest).
  by destruct (Str.contains "[" host), (Str.contains "]" host).
Qed.

(** [isascii()] of a string without brackets, etc. *)
Lemma checknetloc_ascii (netloc : string) :
  Str.isascii netloc = true → parse._checknetloc normalize_nfkc netloc = Done tt.
Proof. intros H. unfold parse._checknetloc. by rewrite H, orb_true_r. Qed.

(** A host of ASCII characters without brackets passes the checks. *)
Lemma plain_host_accepted (host : string) :
  free_of "[]" host = true →
  Str.isascii host = true →
  netloc_accepted ip_address normalize_nfkc host.
Proof.
  intros Hfree Hascii.
  assert (Str.contains "[" host = false) as Hopen
    by (by apply (free_of_contains "[]")).
  assert (Str.contains "]" host = false) as Hclose
    by (by apply (free_of_contains "[]")).
  unfold netloc_accepted. rewrite Hopen, Hclose.
  split; [done|]. split; [done|]. by apply checknetloc_ascii.
Qed.

(** On a path without parameters [urlparse] keeps the path of
    [urlsplit]. *)
Lemma urlparse_plain_path (sch host path suffix : string) :
  scheme_name sch = true →
  free_of "/?#" host = true →
  netloc_accepted ip_address normalize_nfkc host →
  free_of "?#;" path = true →
  one_line (host +:+ path +:+ suffix) = true →
  (path = "" ∨ ∃ p, path = String "/" p) →
  (suffix = "" ∨ ∃ t, suffix = String "?" t ∨ suffix = String "#" t) →
  ∃ query fragment,
    parse.urlparse ip_address normalize_nfkc (sch +:+ "://" +:+ host +:+ path +:+ suffix)
    = Done {| parse.scheme := Str.lower sch; parse.netloc := host;
              parse.path := path; parse.params := "";
              parse.query := query; parse.fragment := fragment |}.
Proof.
  intros Hsch Hhost Haccepted Hpath Hline Hpath_shape Hsuffix_shape.
  destruct (urlsplit_endpoint sch host path suffix Hsch Hhost Haccepted
              (free_of_path _ Hpath) Hline Hpath_shape Hsuffix_shape)
    as (query & fragment & Hsplit).
  assert (Str.contains ";" path = false) as Hparams
    by (by apply (free_of_contains "?#;")).
  exists query, fragment.
  unfold parse.urlparse. rewrite Hsplit. unfold mbind, outcome_bind.
  cbn [parse.split_path parse.split_scheme parse.split_netloc parse.split_query
         parse.split_fragment].
  by rewrite Hparams, andb_false_r.
Qed.

End UrlsOfEndpoints.

(** ** [urlparse] and the route identifier at sample URLs *)

Example urlparse_endpoint :
  parse.urlparse Sample.ip_address Sample.normalize_nfkc "https://host/api/v1/endpointName"
  = Done {| parse.scheme := "https"; parse.netloc := "host";
            parse.path := "/api/v1/endpointName"; parse.params := "";
            parse.query := ""; parse.fragment := "" |}.
Proof. vm_compute. reflexivity. Qed.

Example urlparse_every_component :
  parse.urlparse Sample.ip_address Sample.normalize_nfkc "HTTP://u@h:80/a/b;p=1?q=2#frag"
  = Done {| parse.scheme := "http"; parse.netloc := "u@h:80";
            parse.path := "/a/b"; parse.params := "p=1";
            parse.query := "q=2"; parse.fragment := "frag" |}.
Proof. vm_compute. reflexivity. Qed.

Example urlparse_bracketed_host :
  parse.urlparse Sample.ip_address Sample.normalize_nfkc "http://[::1]:8000/api/saveItem"
  = Done {| parse.scheme := "http"; parse.netloc := "[::1]:8000";
            parse.path := "/api/saveItem"; parse.params := "";
            parse.query := ""; parse.fragment := "" |}.
Proof. vm_compute. reflexivity. Qed.

Example urlparse_unbalanced_bracket :
  parse.urlparse Sample.ip_address Sample.normalize_nfkc Scenario.bad_url
  = Raised (ValueError "Invalid IPv6 URL").
Proof. vm_compute. reflexivity. Qed.

Example urlparse_ipv4_in_brackets :
  parse.urlparse (fun _ => Done parse.IPv4Address) Sample.normalize_nfkc
    "http://[127.0.0.1]/api"
  = Raised (ValueError "An IPv4 address cannot be in brackets").
Proof. vm_compute. reflexivity. Qed.

Example route_path_with_query :
  derives_route Sample.ip_address Sample.normalize_nfkc
    "https://host/api/v1/selectItemList?since=2024/01/01" "/selectItemList".
Proof. eexists. split; [by vm_compute|]. intros s. by vm_compute. Qed.

(** [urlparse] takes the parameters off the last segment. *)
Example route_path_with_params :
  derives_route Sample.ip_address Sample.normalize_nfkc
    "https://host/api/v1/saveItem;v=2" "/saveItem".
Proof. eexists. split; [by vm_compute|]. intros s. by vm_compute. Qed.

Example route_path_trailing_slash :
  derives_route Sample.ip_address Sample.normalize_nfkc "https://host/api/v1/" "/".
Proof. eexists. split; [by vm_compute|]. intros s. by vm_compute. Qed.

Example route_path_no_path :
  derives_route Sample.ip_address Sample.normalize_nfkc "https://host" "/".
Proof. eexists. split; [by vm_compute|]. intros s. by vm_compute. Qed.

(** The route of a parsed URL whose path ends in [segment]. *)
Lemma route_path_last_segment (parsed_url : parse.ParseResult) (segment : string) :
  last_segment (parse.path parsed_url) segment →
  route_path parsed_url = "/" +:+ segment.
Proof. intros Hlast. unfold route_path. by rewrite (last_item_last_segment _ _ Hlast). Qed.

(** C8, as the code has it: for every URL that [urlparse] accepts, the
    derived route identifier is a single slash followed by the last segment
    (the slash-free text after the last slash) of the path component that
    [urlparse] returns. For a URL of the form [scheme://host path suffix],
    where the scheme is a letter followed by letters, digits, [+], [-] and
    [.], the host holds none of [/], [?], [#] and passes the host checks of
    [urlsplit], the path is empty or starts with a slash and holds none of
    [?], [#], [;], the suffix is empty or starts with [?] or [#], and host,
    path and suffix hold no tab, carriage return or line feed, that
    component is the path of the URL, so the identifier is a slash followed
    by the last path segment of the URL; a host of ASCII characters without
    square brackets passes the host checks. For
    [https://host/api/v1/endpointName] it is [/endpointName]. *)
Theorem C8_route_identifier (ip_address : string -> outcome parse.ip_address_class)
    (normalize_nfkc : string -> string) :
  (∀ url parsed_url,
      parse.urlparse ip_address normalize_nfkc url = Done parsed_url →
      ∃ segment, last_segment (parse.path parsed_url) segment
                 ∧ derives_route ip_address normalize_nfkc url ("/" +:+ segment))
  ∧ (∀ sch host path suffix segment,
        scheme_name sch = true →
        free_of "/?#" host = true →
        netloc_accepted ip_address normalize_nfkc host →
        free_of "?#;" path = true →
        one_line (host +:+ path +:+ suffix) = true →
        (path = "" ∨ ∃ p, path = String "/" p) →
        (suffix = "" ∨ ∃ t, suffix = String "?" t ∨ suffix = String "#" t) →
        last_segment path segment →
        derives_route ip_address normalize_nfkc
          (sch +:+ "://" +:+ host +:+ path +:+ suffix) ("/" +:+ segment))
  ∧ (∀ host, free_of "[]" host = true → Str.isascii host = true →
             netloc_accepted ip_address normalize_nfkc host)
  ∧ derives_route ip_address normalize_nfkc
      "https://host/api/v1/endpointName" "/endpointName".
Proof.
  assert (∀ sch host path suffix segment,
        scheme_name sch = true →
        free_of "/?#" host = true →
        netloc_accepted ip_address normalize_nfkc host →
        free_of "?#;" path = true →
        one_line (host +:+ path +:+ suffix) = true →
        (path = "" ∨ ∃ p, path = String "/" p) →
        (suffix = "" ∨ ∃ t, suffix = String "?" t ∨ suffix = String "#" t) →
        last_segment path segment →
        derives_route ip_address normalize_nfkc
          (sch +:+ "://" +:+ host +:+ path +:+ suffix) ("/" +:+ segment)) as Hform.
  { intros sch host path suffix segment Hsch Hhost Haccepted Hpath Hline Hpath_shape
      Hsuffix_shape Hlast.
    destruct (urlparse_plain_path ip_address normalize_nfkc sch host path suffix
                Hsch Hhost Haccepted Hpath Hline Hpath_shape Hsuffix_shape)
      as (query & fragment & Hparsed).
    eexists. split; [exact Hparsed|]. intros s.
    rewrite route_path_of_total. by rewrite (route_path_last_segment _ segment). }
  split; [|split; [exact Hform|split; [apply plain_host_accepted|]]].
  - intros url parsed_url Hparsed.
    destruct (split_last_segment "/" (parse.path parsed_url))
      as (segment & Hlast & Hclean & Hpath).
    exists segment. split; [by split|].
    exists parsed_url. split; [done|]. intros s.
    rewrite route_path_of_total. unfold route_path. by rewrite Hlast.
  - apply (Hform "https" "host" "/api/v1/endpointName" "" "endpointName");
      [done | done | by apply plain_host_accepted | done | done
      | right; by eexists | by left | ].
    split; [done|]. right. by exists "/api/v1".
Qed.

(** C8, as stated, fails: a URL whose host opens a bracket and does not
    close it is a URL one can configure, and [urlparse] raises on it, so
    that no route identifier is derived. *)
Lemma C8_rejected_url_counterexample :
  _url (Scenario.builder_with_url Scenario.bad_url) = Some Scenario.bad_url
  ∧ parse.urlparse Sample.ip_address Sample.normalize_nfkc Scenario.bad_url
    = Raised (ValueError "Invalid IPv6 URL")
  ∧ ¬ ∃ route,
        derives_route Sample.ip_address Sample.normalize_nfkc Scenario.bad_url route.
Proof.
  split; [done|]. split; [by vm_compute|].
  intros (route & parsed_url & Hparsed & _).
  vm_compute in Hparsed. discriminate Hparsed.
Qed.

(** ** The property accessors *)

(** C9, as the code has it: the [method] setter stores every value it is
    given, enumerated verb or not, and the getter returns it; no other field
    changes. *)
Theorem C9_method_setter_stores_verbatim (new_method : string) (self : EndpointsBuilder) :
  method (set_method new_method self) = new_method
  ∧ url (set_method new_method self) = url self
  ∧ payload (set_method new_method self) = payload self
  ∧ headers (set_method new_method self) = headers self
  ∧ error (set_method new_method self) = error self
  ∧ success_callback (set_method new_method self) = success_callback self
  ∧ error_callback (set_method new_method self) = error_callback self.
Proof. by repeat split. Qed.

(** C9, as stated, fails: [TRACE] is none of the enumerated verbs, and
    setting it stores it. *)
Lemma C9_method_setter_counterexample :
  ("TRACE" ∉ enumerated_verbs)
  ∧ ¬ (method (set_method "TRACE" init) ≠ "TRACE").
Proof.
  split.
  - intros Hin. unfold enumerated_verbs, setter_literals in Hin.
    repeat (apply elem_of_cons in Hin as [Heq | Hin]; [discriminate Heq|]).
    by apply elem_of_nil in Hin.
  - intros Hne. by apply Hne.
Qed.

(** ** Dispatch *)

Lemma calls_between_app (s s' : state) (calls : list event) :
  history (world s') = history (world s) ++ calls → calls_between s s' = calls.
Proof. unfold calls_between. intros ->. apply drop_app_length. Qed.

Lemma calls_between_same (s : state) : calls_between s s = [].
Proof. apply calls_between_app. by rewrite app_nil_r. Qed.

Section DispatchProperties.

Variable ip_address : string -> outcome parse.ip_address_class.
Variable normalize_nfkc : string -> string.
Variable make_post_request : string -> option dict -> dict -> post_result.
Variable request_name : World -> string.
Variables (doctype : option Doctype) (document_name : option string).

Local Abbreviation run :=
  (make_remote_call ip_address normalize_nfkc make_post_request request_name
     doctype document_name).
Local Abbreviation calls :=
  (calls_made ip_address normalize_nfkc make_post_request request_name
     doctype document_name).
Local Abbreviation urlparse := (parse.urlparse ip_address normalize_nfkc).

Lemma run_unconfigured (s : state) :
  unconfigured (this s) →
  run s = (Raised (Thrown "Please check that all required request parameters are supplied."
                     MandatoryError "Setup Error"), s).
Proof.
  intros Hun. unfold make_remote_call, mbind, M_bind, get_self.
  destruct Hun as [H | [H | [H | H]]]; rewrite H;
    repeat (match goal with
            | |- context [match ?o with Some _ => _ | None => _ end] => destruct o
            end); reflexivity.
Qed.

Lemma calls_unconfigured (s : state) : unconfigured (this s) → calls s = [].
Proof.
  intros Hun. unfold calls_made. rewrite (run_unconfigured s Hun).
  apply calls_between_same.
Qed.

(** [urlparse] raises before anything else is done. *)
Lemma run_rejected (s : state) url headers on_success on_error e :
  configured (this s) url headers on_success on_error →
  urlparse url = Raised e →
  run s = (Raised e, s).
Proof.
  intros (Hu & Hh & Hs & He) Hrejected.
  unfold make_remote_call, mbind, M_bind, get_self, pure.
  by rewrite Hu, Hh, Hs, He, Hrejected.
Qed.

Lemma calls_rejected (s : state) url headers on_success on_error e :
  configured (this s) url headers on_success on_error →
  urlparse url = Raised e →
  calls s = [].
Proof.
  intros Hcfg Hrejected. unfold calls_made.
  rewrite (run_rejected s _ _ _ _ e Hcfg Hrejected).
  apply calls_between_same.
Qed.

Lemma configured_or_not (self : EndpointsBuilder) :
  unconfigured self
  ∨ ∃ url headers on_success on_error, configured self url headers on_success on_error.
Proof.
  unfold unconfigured, configured.
  destruct (_url self) as [url|]; [|by left; left].
  destruct (_headers self) as [headers|]; [|by left; right; left].
  destruct (_success_callback_handler self) as [on_success|];
    [|by left; right; right; left].
  destruct (_error_callback_handler self) as [on_error|];
    [|by left; right; right; right].
  right. by exists url, headers, on_success, on_error.
Qed.

(** The three ways a dispatch can start: the configuration check fails,
    [urlparse] raises, or the audit record is written. *)
Lemma dispatch_cases (s : state) :
  unconfigured (this s)
  ∨ (∃ url headers on_success on_error e,
        configured (this s) url headers on_success on_error
        ∧ urlparse url = Raised e)
  ∨ (∃ url headers on_success on_error parsed_url,
        configured (this s) url headers on_success on_error
        ∧ urlparse url = Done parsed_url).
Proof.
  destruct (configured_or_not (this s))
    as [Hun | (url & headers & on_success & on_error & Hcfg)]; [by left|].
  right. destruct (urlparse url) as [parsed_url | e] eqn:Hparsed.
  - right. by exists url, headers, on_success, on_error, parsed_url.
  - left. by exists url, headers, on_success, on_error, e.
Qed.

Lemma configured_not_unconfigured self url headers on_success on_error :
  configured self url headers on_success on_error → ¬ unconfigured self.
Proof. intros (Hu & Hh & Hs & He) [H | [H | [H | H]]]; congruence. Qed.

Lemma configured_same self url headers on_success on_error url' headers' on_success'
    on_error' :
  configured self url headers on_success on_error →
  configured self url' headers' on_success' on_error' →
  url' = url ∧ headers' = headers ∧ on_success' = on_success ∧ on_error' = on_error.
Proof. intros (Hu & Hh & Hs & He) (Hu' & Hh' & Hs' & He'). repeat split; congruence. Qed.

(** C3: when any of url, headers, success handler or error handler is
    unset, [make_remote_call] raises the setup error and nothing else
    happens: the state is untouched, so no audit record is created and no
    call, to the network or elsewhere, is made. *)
Theorem C3_setup_error (s : state) :
  unconfigured (this s) →
  run s = (Raised (Thrown "Please check that all required request parameters are supplied."
                     MandatoryError "Setup Error"), s)
  ∧ calls s = []
  ∧ integration_requests (world (run s).2) = integration_requests (world s).
Proof.
  intros Hun. pose proof (run_unconfigured s Hun) as Hrun.
  split; [done|]. unfold calls_made. rewrite Hrun. split; [|done].
  by apply calls_between_app, eq_sym, app_nil_r.
Qed.

(** *** The branches of a configured dispatch *)

Section Configured.

Variables (s : state) (url : string) (headers : dict).
Variables (on_success : success_callback_t) (on_error : error_callback_t).
Variable parsed_url : parse.ParseResult.
Hypothesis Hconfigured : configured (this s) url headers on_success on_error.
Hypothesis Hparsed : urlparse url = Done parsed_url.

Local Abbreviation audit := (audit_record request_name s url headers doctype document_name).
Local Abbreviation posted := (after_post request_name s url headers doctype document_name).

(** The whole method, branch by branch, once the four fields are set and
    the URL is parsed. *)
Lemma run_configured :
  run s =
  match make_post_request url (_payload (this s)) headers with
  | Fails error => caught (Transport error) posted
  | Responds response =>
      match response !! "resultCd" with
      | None => (Raised (KeyError "resultCd"), posted)
      | Some resultCd =>
          if eq_str resultCd "000" then
            match on_success response with
            | Raises e => caught e (add_call (SuccessCallback response) posted)
            | Returns =>
                match response !! "resultDt" with
                | None => (Raised (KeyError "resultDt"),
                           add_call (SuccessCallback response) posted)
                | Some resultDt =>
                    (Done tt,
                     on_self_world (store_date (route_path parsed_url) resultDt)
                       (add_call (UpdateLastRequestDate resultDt (route_path parsed_url))
                          (add_call (SuccessCallback response) posted)))
                end
            end
          else
            settle (on_error response (route_path parsed_url) doctype document_name
                      (frappe.name audit))
              (add_call (ErrorCallback response (route_path parsed_url) doctype
                           document_name (frappe.name audit)) posted)
      end
  end.
Proof.
  destruct Hconfigured as (Hu & Hh & Hs & He).
  unfold make_remote_call, mbind, M_bind, get_self, pure.
  rewrite Hu, Hh, Hs, He, Hparsed, route_path_of_total.
  unfold create_request_log, try_except, run_make_post_request, on_world, mbind, M_bind.
  simpl.
  destruct (make_post_request _ _ _) as [response | error]; [|reflexivity].
  unfold getitem, mret, M_ret.
  destruct (response !! "resultCd") as [resultCd|]; [|reflexivity].
  destruct (eq_str resultCd "000").
  - unfold call_success, on_world, mbind, M_bind. simpl.
    destruct (on_success response) as [|e].
    + by destruct (response !! "resultDt").
    + unfold caught, raise. simpl. by destruct (except_clauses e).
  - unfold call_error, on_world, mbind, M_bind. simpl.
    destruct (on_error _ _ _ _ _) as [|e]; [reflexivity|].
    unfold settle, caught, raise. simpl. by destruct (except_clauses e).
Qed.

Lemma caught_transport error (s0 : state) :
  caught (Transport error) s0
  = (Raised (Thrown (fault_message error) (ErrorInstance error) (fault_title error)),
     add_call (LoggerException error true) s0).
Proof. by destruct error. Qed.

Lemma caught_history e (s0 : state) :
  history (world (caught e s0).2) = history (world s0) ++ logged e.
Proof.
  by_exception e; simpl; try reflexivity;
    by rewrite app_nil_r.
Qed.

Lemma caught_this e (s0 : state) : this (caught e s0).2 = this s0.
Proof. by by_exception e. Qed.

Lemma caught_requests e (s0 : state) :
  integration_requests (world (caught e s0).2) = integration_requests (world s0).
Proof. by by_exception e. Qed.

Lemma caught_dates e (s0 : state) :
  last_request_dates (world (caught e s0).2) = last_request_dates (world s0).
Proof. by by_exception e. Qed.

Lemma posted_history :
  history (world posted)
  = history (world s)
    ++ [CreateRequestLog audit; MakePostRequest url (_payload (this s)) headers].
Proof. simpl. by rewrite <- app_assoc. Qed.

(** The calls of the whole method, branch by branch. *)
Lemma calls_configured :
  calls s =
  CreateRequestLog audit :: MakePostRequest url (_payload (this s)) headers ::
  match make_post_request url (_payload (this s)) headers with
  | Fails error => [LoggerException error true]
  | Responds response =>
      match response !! "resultCd" with
      | None => []
      | Some resultCd =>
          if eq_str resultCd "000" then
            SuccessCallback response ::
            match on_success response with
            | Raises e => logged e
            | Returns =>
                match response !! "resultDt" with
                | None => []
                | Some resultDt => [UpdateLastRequestDate resultDt (route_path parsed_url)]
                end
            end
          else
            ErrorCallback response (route_path parsed_url) doctype document_name
              (frappe.name audit) ::
            match on_error response (route_path parsed_url) doctype document_name
                    (frappe.name audit) with
            | Raises e => logged e
            | Returns => []
            end
      end
  end.
Proof.
  unfold calls_made. rewrite run_configured. apply calls_between_app.
  destruct (make_post_request _ _ _) as [response | error].
  - destruct (response !! "resultCd") as [resultCd|]; [|apply posted_history].
    destruct (eq_str resultCd "000").
    + destruct (on_success response) as [|e].
      * destruct (response !! "resultDt"); simpl; by rewrite <- !app_assoc.
      * rewrite caught_history. simpl. by rewrite <- !app_assoc.
    + destruct (on_error _ _ _ _ _) as [|e]; simpl.
      * by rewrite <- !app_assoc.
      * rewrite caught_history. simpl. by rewrite <- !app_assoc.
  - rewrite caught_history. simpl. by rewrite <- !app_assoc.
Qed.

End Configured.

(** A dispatch that makes the network call has parsed its URL. *)
Lemma called_parsed (s : state) url headers on_success on_error u p h :
  configured (this s) url headers on_success on_error →
  MakePostRequest u p h ∈ calls s →
  ∃ parsed_url, urlparse url = Done parsed_url.
Proof.
  intros Hcfg Hcall. destruct (urlparse url) as [parsed_url | e] eqn:Hparsed;
    [by exists parsed_url|].
  rewrite (calls_rejected s _ _ _ _ e Hcfg Hparsed) in Hcall.
  by apply elem_of_nil in Hcall.
Qed.

Lemma eq_str_true (v : pyval) (literal : string) :
  eq_str v literal = true ↔ v = PyStr literal.
Proof.
  destruct v; simpl; try (split; [discriminate | intros [=]]).
  rewrite String.eqb_eq. split; [by intros -> | by intros [= ->]].
Qed.

Lemma eq_str_false (v : pyval) (literal : string) :
  v ≠ PyStr literal → eq_str v literal = false.
Proof.
  intros Hne. destruct (eq_str v literal) eqn:Heq; [|done].
  by apply eq_str_true in Heq.
Qed.

Lemma run_this (s : state) : this (run s).2 = this s.
Proof.
  destruct (dispatch_cases s)
    as [Hun | [(url & headers & on_success & on_error & e & Hcfg & Hrejected)
              | (url & headers & on_success & on_error & parsed_url & Hcfg & Hparsed)]].
  - by rewrite run_unconfigured.
  - by rewrite (run_rejected s _ _ _ _ e Hcfg Hrejected).
  - rewrite (run_configured _ _ _ _ _ _ Hcfg Hparsed).
    destruct (make_post_request _ _ _) as [response | error];
      [|by rewrite caught_this].
    destruct (response !! "resultCd") as [resultCd|]; [|done].
    destruct (eq_str resultCd "000").
    + destruct (on_success response); [|by rewrite caught_this].
      by destruct (response !! "resultDt").
    + destruct (on_error _ _ _ _ _); [done | simpl; by rewrite caught_this].
Qed.

(** The configured method has no part in a dispatch. *)
Lemma run_ignores_method (new_method : string) (s : state) :
  run (on_self (set_method new_method) s)
  = ((run s).1, on_self (set_method new_method) (run s).2).
Proof.
  destruct (dispatch_cases s)
    as [Hun | [(url & headers & on_success & on_error & e & Hcfg & Hrejected)
              | (url & headers & on_success & on_error & parsed_url & Hcfg & Hparsed)]].
  - rewrite (run_unconfigured s Hun). by apply run_unconfigured.
  - assert (configured (this (on_self (set_method new_method) s))
              url headers on_success on_error) as Hcfg' by apply Hcfg.
    by rewrite (run_rejected s _ _ _ _ e Hcfg Hrejected),
      (run_rejected _ _ _ _ _ e Hcfg' Hrejected).
  - assert (configured (this (on_self (set_method new_method) s))
              url headers on_success on_error) as Hcfg' by apply Hcfg.
    rewrite (run_configured _ _ _ _ _ _ Hcfg Hparsed),
      (run_configured _ _ _ _ _ _ Hcfg' Hparsed).
    change (_payload (this (on_self (set_method new_method) s)))
      with (_payload (this s)).
    destruct (make_post_request _ _ _) as [response | error].
    + destruct (response !! "resultCd") as [resultCd|]; [|done].
      destruct (eq_str resultCd "000").
      * destruct (on_success response) as [|e].
        -- by destruct (response !! "resultDt").
        -- by by_exception e.
      * change (frappe.name (audit_record request_name
                  (on_self (set_method new_method) s) url headers doctype document_name))
          with (frappe.name (audit_record request_name s url headers
                               doctype document_name)).
        destruct (on_error _ _ _ _ _) as [|e]; [done|].
        by by_exception e.
    + by destruct error.
Qed.

(** C4: when the network call of a dispatch raises a transport fault, no
    handler is invoked, the fault is written to the diagnostic log with its
    trace ([exc_info=True]) after the audit record and the network call, and
    the dispatch ends in a blocking error whose message is "Connection
    failed" for a connector error, "Connection reset by peer" for another OS
    error of the client, and "Timeout Encountered" for a timeout. *)
Theorem C4_transport_fault (s : state) url headers on_success on_error error :
  configured (this s) url headers on_success on_error →
  MakePostRequest url (_payload (this s)) headers ∈ calls s →
  make_post_request url (_payload (this s)) headers = Fails error →
  (run s).1 = Raised (Thrown match error with
                             | ClientConnectorError _ => "Connection failed"
                             | ClientOSError _ => "Connection reset by peer"
                             | TimeoutError _ => "Timeout Encountered"
                             end (ErrorInstance error) (fault_title error))
  ∧ calls s = [CreateRequestLog
                 (audit_record request_name s url headers doctype document_name);
               MakePostRequest url (_payload (this s)) headers;
               LoggerException error true]
  ∧ count is_success_call (calls s) = 0%nat
  ∧ count is_error_call (calls s) = 0%nat.
Proof.
  intros Hcfg Hcalled Hnet.
  destruct (called_parsed s _ _ _ _ _ _ _ Hcfg Hcalled) as (parsed_url & Hparsed).
  clear Hcalled.
  rewrite (run_configured _ _ _ _ _ _ Hcfg Hparsed),
    (calls_configured _ _ _ _ _ _ Hcfg Hparsed), Hnet.
  rewrite caught_transport. by destruct error.
Qed.

(** C7, as the code has it: a dispatch that passes the configuration check
    and whose URL [urlparse] accepts writes the audit record exactly once,
    as its first call, and makes the network call right after it, exactly
    once; this holds whatever the network call and the handlers do
    afterwards, transport faults included. When [urlparse] raises, the
    dispatch ends with that exception and has done nothing: no audit record
    is written and no call is made. *)
Theorem C7_audit_before_network (s : state) url headers on_success on_error :
  configured (this s) url headers on_success on_error →
  (∀ parsed_url, urlparse url = Done parsed_url →
     ∃ rest,
       calls s = CreateRequestLog
                   (audit_record request_name s url headers doctype document_name)
                 :: MakePostRequest url (_payload (this s)) headers :: rest
       ∧ count is_request_log (calls s) = 1%nat
       ∧ count is_post_request (calls s) = 1%nat
       ∧ integration_requests (world (run s).2)
         = integration_requests (world s)
           ++ [audit_record request_name s url headers doctype document_name])
  ∧ (∀ e, urlparse url = Raised e → run s = (Raised e, s) ∧ calls s = []).
Proof.
  intros Hcfg. split.
  - intros parsed_url Hparsed.
    rewrite (run_configured _ _ _ _ _ _ Hcfg Hparsed),
      (calls_configured _ _ _ _ _ _ Hcfg Hparsed).
    eexists. split; [reflexivity|].
    destruct (make_post_request _ _ _) as [response | error].
    + destruct (response !! "resultCd") as [resultCd|]; [|done].
      destruct (eq_str resultCd "000").
      * destruct (on_success response) as [|e].
        -- by destruct (response !! "resultDt").
        -- by by_exception e.
      * destruct (on_error _ _ _ _ _) as [|e]; [done|].
        by by_exception e.
    + by destruct error.
  - intros e Hrejected. split.
    + by apply (run_rejected s _ _ _ _ e Hcfg).
    + by apply (calls_rejected s _ _ _ _ e Hcfg).
Qed.

(** C2: when the network call of a dispatch completes with a response
    whose result code differs from "000", the error handler is invoked
    exactly once, with the response itself, the route identifier derived
    from the URL, the supplied doctype and document name and the name of the
    audit record; the success handler is not invoked and the last-sync
    tracker is not updated. *)
Theorem C2_business_error (s : state) url headers on_success on_error response resultCd :
  configured (this s) url headers on_success on_error →
  MakePostRequest url (_payload (this s)) headers ∈ calls s →
  make_post_request url (_payload (this s)) headers = Responds response →
  response !! "resultCd" = Some resultCd →
  resultCd ≠ PyStr "000" →
  ∃ parsed_url,
    urlparse url = Done parsed_url
    ∧ (∃ rest,
          calls s = [CreateRequestLog
                       (audit_record request_name s url headers doctype document_name);
                     MakePostRequest url (_payload (this s)) headers;
                     ErrorCallback response (route_path parsed_url) doctype document_name
                       (frappe.name
                          (audit_record request_name s url headers doctype
                             document_name))]
                    ++ rest
          ∧ Forall (fun e => is_logger_call e = true) rest)
    ∧ count is_error_call (calls s) = 1%nat
    ∧ count is_success_call (calls s) = 0%nat
    ∧ count is_tracker_update (calls s) = 0%nat
    ∧ last_request_dates (world (run s).2) = last_request_dates (world s).
Proof.
  intros Hcfg Hcalled Hnet Hcd Hne%eq_str_false.
  destruct (called_parsed s _ _ _ _ _ _ _ Hcfg Hcalled) as (parsed_url & Hparsed).
  clear Hcalled. exists parsed_url. split; [done|].
  rewrite (run_configured _ _ _ _ _ _ Hcfg Hparsed),
    (calls_configured _ _ _ _ _ _ Hcfg Hparsed).
  rewrite Hnet, Hcd, Hne.
  destruct (on_error _ _ _ _ _) as [|e].
  - split; [|done]. exists []. by split.
  - simpl. rewrite caught_dates.
    split; [|by by_exception e].
    exists (logged e). split; [done|].
    by_exception e; by repeat constructor.
Qed.

(** C1, as the code has it: when the network call of a dispatch completes
    with a response whose result code is "000", the success handler is
    invoked exactly once, with the full response, and the error handler is
    not invoked; when the handler returns and the response holds a result
    timestamp, the last-sync tracker is then updated exactly once, with that
    timestamp and the route identifier derived from the URL, and the
    dispatch returns; when the handler raises or the response holds no
    result timestamp, the tracker is not updated. *)
Theorem C1_success (s : state) url headers on_success on_error response :
  configured (this s) url headers on_success on_error →
  MakePostRequest url (_payload (this s)) headers ∈ calls s →
  make_post_request url (_payload (this s)) headers = Responds response →
  response !! "resultCd" = Some (PyStr "000") →
  ∃ parsed_url,
    urlparse url = Done parsed_url
    ∧ (∃ rest,
          calls s = [CreateRequestLog
                       (audit_record request_name s url headers doctype document_name);
                     MakePostRequest url (_payload (this s)) headers;
                     SuccessCallback response] ++ rest
          ∧ count is_success_call (calls s) = 1%nat
          ∧ count is_error_call (calls s) = 0%nat)
    ∧ (on_success response = Returns →
       ∀ resultDt, response !! "resultDt" = Some resultDt →
         (run s).1 = Done tt
         ∧ calls s = [CreateRequestLog
                        (audit_record request_name s url headers doctype document_name);
                      MakePostRequest url (_payload (this s)) headers;
                      SuccessCallback response;
                      UpdateLastRequestDate resultDt (route_path parsed_url)]
         ∧ count is_tracker_update (calls s) = 1%nat
         ∧ last_request_dates (world (run s).2)
           = <[route_path parsed_url := resultDt]> (last_request_dates (world s)))
    ∧ (on_success response ≠ Returns ∨ response !! "resultDt" = None →
       count is_tracker_update (calls s) = 0%nat
       ∧ last_request_dates (world (run s).2) = last_request_dates (world s)).
Proof.
  intros Hcfg Hcalled Hnet Hcd.
  destruct (called_parsed s _ _ _ _ _ _ _ Hcfg Hcalled) as (parsed_url & Hparsed).
  clear Hcalled. exists parsed_url. split; [done|].
  rewrite (run_configured _ _ _ _ _ _ Hcfg Hparsed),
    (calls_configured _ _ _ _ _ _ Hcfg Hparsed).
  rewrite Hnet, Hcd. simpl. split; [|split].
  - eexists. split; [reflexivity|].
    destruct (on_success response) as [|e].
    + by destruct (response !! "resultDt").
    + by by_exception e.
  - intros Hret resultDt Hdt. by rewrite Hret, Hdt.
  - destruct (on_success response) as [|e].
    + intros [Hraises | Hdt]; [done|]. by rewrite Hdt.
    + intros _. rewrite caught_dates. by by_exception e.
Qed.

(** C5, as the code has it: no execution invokes more than one handler, so
    never both; exactly one is invoked when the configuration check passes,
    [urlparse] accepts the URL and the network call returns a response that
    holds a result code; none is invoked when the configuration check fails,
    when [urlparse] raises, when the network call raises a transport fault,
    or when the response holds no result code. *)
Theorem C5_one_handler (s : state) :
  (handler_calls (calls s) ≤ 1)%nat
  ∧ (unconfigured (this s) → handler_calls (calls s) = 0%nat)
  ∧ (∀ url headers on_success on_error,
       configured (this s) url headers on_success on_error →
       match urlparse url with
       | Raised _ => handler_calls (calls s) = 0%nat
       | Done _ =>
           match make_post_request url (_payload (this s)) headers with
           | Fails _ => handler_calls (calls s) = 0%nat
           | Responds response =>
               match response !! "resultCd" with
               | Some _ => handler_calls (calls s) = 1%nat
               | None => handler_calls (calls s) = 0%nat
               end
           end
       end).
Proof.
  assert (∀ url headers on_success on_error,
       configured (this s) url headers on_success on_error →
       match urlparse url with
       | Raised _ => handler_calls (calls s) = 0%nat
       | Done _ =>
           match make_post_request url (_payload (this s)) headers with
           | Fails _ => handler_calls (calls s) = 0%nat
           | Responds response =>
               match response !! "resultCd" with
               | Some _ => handler_calls (calls s) = 1%nat
               | None => handler_calls (calls s) = 0%nat
               end
           end
       end) as Hbranches.
  { intros url headers on_success on_error Hcfg.
    destruct (urlparse url) as [parsed_url | e] eqn:Hparsed;
      [|by rewrite (calls_rejected s _ _ _ _ e Hcfg Hparsed)].
    rewrite (calls_configured _ _ _ _ _ _ Hcfg Hparsed).
    destruct (make_post_request _ _ _) as [response | error]; [|done].
    destruct (response !! "resultCd") as [resultCd|]; [|done].
    destruct (eq_str resultCd "000").
    - destruct (on_success response) as [|e].
      + by destruct (response !! "resultDt").
      + by by_exception e.
    - destruct (on_error _ _ _ _ _) as [|e]; [done|].
      by by_exception e. }
  assert (unconfigured (this s) → handler_calls (calls s) = 0%nat) as Hnone.
  { intros Hun. by rewrite (calls_unconfigured s Hun). }
  split; [|by split].
  destruct (configured_or_not (this s))
    as [Hun | (url & headers & on_success & on_error & Hcfg)].
  - rewrite (Hnone Hun). lia.
  - specialize (Hbranches _ _ _ _ Hcfg).
    destruct (urlparse url); [|lia].
    destruct (make_post_request _ _ _) as [response | error]; [|lia].
    destruct (response !! "resultCd"); lia.
Qed.

(** C6, as the code has it: a dispatch that passes the configuration check
    and whose URL [urlparse] accepts writes an audit record that holds
    payload, headers, url, document name and doctype, and then calls
    [make_post_request] with url, payload and headers; the configured method
    is part of neither, and changing it changes nothing of what a dispatch
    does. *)
Theorem C6_method_not_consulted (s : state) url headers on_success on_error new_method :
  configured (this s) url headers on_success on_error →
  (∀ parsed_url, urlparse url = Done parsed_url →
     ∃ rest,
       calls s = CreateRequestLog
                   {| frappe.name := request_name (world s);
                      frappe.data := _payload (this s);
                      frappe.is_remote_request := true;
                      frappe.service_name := "etims";
                      frappe.request_headers := headers;
                      frappe.url := url;
                      frappe.reference_docname := document_name;
                      frappe.reference_doctype := doctype |}
                 :: MakePostRequest url (_payload (this s)) headers :: rest)
  ∧ (run (on_self (set_method new_method) s)).1 = (run s).1
  ∧ world (run (on_self (set_method new_method) s)).2 = world (run s).2
  ∧ calls (on_self (set_method new_method) s) = calls s.
Proof.
  intros Hcfg. split.
  { intros parsed_url Hparsed.
    rewrite (calls_configured _ _ _ _ _ _ Hcfg Hparsed). eexists. reflexivity. }
  unfold calls_made. rewrite run_ignores_method. done.
Qed.

End DispatchProperties.

(** ** The dispatcher object is left as it was *)

(** C10, as the code has it: [make_remote_call] leaves every field of the
    dispatcher as it was, in every execution; and of the operations of the
    class only the [error] setter writes [_error], which then holds the value
    given. *)
Theorem C10_fields_preserved
    (ip_address : string -> outcome parse.ip_address_class)
    (normalize_nfkc : string -> string)
    (make_post_request : string -> option dict -> dict -> post_result)
    (request_name : World -> string) (op : operation) (s : state) :
  (∀ doctype document_name,
      this (make_remote_call ip_address normalize_nfkc make_post_request request_name
              doctype document_name s).2
      = this s)
  ∧ (is_error_setter op = false →
     _error (this (perform ip_address normalize_nfkc make_post_request request_name op s))
     = _error (this s))
  ∧ (∀ new_error,
      _error (this (perform ip_address normalize_nfkc make_post_request request_name
                      (SetError new_error) s))
      = new_error).
Proof.
  split; [|split].
  - intros doctype document_name. apply run_this.
  - destruct op; simpl; try done. intros _. by rewrite run_this.
  - done.
Qed.

(** C10, as stated, fails: the [error] setter is an operation of the class,
    and it writes the field. *)
Lemma C10_error_setter_counterexample :
  _error (this (perform Sample.ip_address Sample.normalize_nfkc
                  (Sample.responds Sample.ok_response) Sample.request_name
                  (SetError (Some "Connection failed")) (Sample.start Sample.builder)))
  ≠ _error (this (Sample.start Sample.builder)).
Proof. discriminate. Qed.

(** ** The properties at the sample inputs *)

Lemma configured_sample (handler : success_callback_t) :
  configured (this (Sample.start (Sample.builder_with handler)))
    Sample.endpoint Sample.request_headers handler Sample.on_error.
Proof. by repeat split. Qed.

Lemma configured_scenario (handler : error_callback_t) :
  configured (this (Sample.start (Scenario.builder_with_error_handler handler)))
    Sample.endpoint Sample.request_headers Sample.on_success handler.
Proof. by repeat split. Qed.

Lemma configured_bad_url :
  configured (this (Sample.start (Scenario.builder_with_url Scenario.bad_url)))
    Scenario.bad_url Sample.request_headers Sample.on_success Sample.on_error.
Proof. by repeat split. Qed.

(** The sample dispatcher makes the network call, whatever the transport
    and the handlers do. *)
Lemma sample_call_made (make_post_request : string -> option dict -> dict -> post_result)
    (self : EndpointsBuilder) on_success on_error :
  configured self Sample.endpoint Sample.request_headers on_success on_error →
  MakePostRequest Sample.endpoint (_payload self) Sample.request_headers
  ∈ calls_made Sample.ip_address Sample.normalize_nfkc make_post_request
      Sample.request_name Sample.doctype Sample.document_name (Sample.start self).
Proof.
  intros Hcfg.
  rewrite (calls_configured _ _ _ _ _ _ (Sample.start self) _ _ _ _ _ Hcfg
             urlparse_endpoint).
  apply list_elem_of_further, list_elem_of_here.
Qed.

Example dispatch_success :
  make_remote_call Sample.ip_address Sample.normalize_nfkc
    (Sample.responds Sample.ok_response) Sample.request_name
    Sample.doctype Sample.document_name (Sample.start Sample.builder)
  = (Done tt,
     {| this := Sample.builder;
        world :=
          {| integration_requests :=
               [audit_record Sample.request_name (Sample.start Sample.builder)
                  Sample.endpoint Sample.request_headers Sample.doctype
                  Sample.document_name];
             last_request_dates := {[ "/endpointName" := PyStr "20240102030405" ]};
             history :=
               [CreateRequestLog
                  (audit_record Sample.request_name (Sample.start Sample.builder)
                     Sample.endpoint Sample.request_headers Sample.doctype
                     Sample.document_name);
                MakePostRequest Sample.endpoint (Some Sample.request_payload)
                  Sample.request_headers;
                SuccessCallback Sample.ok_response;
                UpdateLastRequestDate (PyStr "20240102030405") "/endpointName"] |} |}).
Proof. vm_compute. reflexivity. Qed.

(** A handler runs inside the [try] block: a transport error it raises is
    reported like one of the network call. *)
Example dispatch_handler_raises_transport_error :
  let handler : success_callback_t :=
    fun _ => Raises (Transport (ClientConnectorError "refused")) in
  let result :=
    make_remote_call Sample.ip_address Sample.normalize_nfkc
      (Sample.responds Sample.ok_response) Sample.request_name
      Sample.doctype Sample.document_name (Sample.start (Sample.builder_with handler)) in
  result.1 = Raised (Thrown "Connection failed"
                       (ErrorInstance (ClientConnectorError "refused")) "Connection Error")
  ∧ last_request_dates (world result.2) = ∅
  ∧ List.map is_logger_call (history (world result.2)) = [false; false; false; true].
Proof. vm_compute. by repeat split. Qed.

(** A success response without a result timestamp: the handler has run when
    the subscript raises. *)
Example dispatch_missing_timestamp :
  let response : dict := {[ "resultCd" := PyStr "000" ]} in
  let result :=
    make_remote_call Sample.ip_address Sample.normalize_nfkc
      (Sample.responds response) Sample.request_name
      Sample.doctype Sample.document_name (Sample.start Sample.builder) in
  result.1 = Raised (KeyError "resultDt")
  ∧ count is_success_call (history (world result.2)) = 1%nat
  ∧ last_request_dates (world result.2) = ∅.
Proof. vm_compute. by repeat split. Qed.

(** A URL that [urlparse] rejects: the dispatch raises and leaves the state
    as it was. *)
Example dispatch_rejected_url :
  make_remote_call Sample.ip_address Sample.normalize_nfkc
    (Sample.responds Sample.ok_response) Sample.request_name
    Sample.doctype Sample.document_name
    (Sample.start (Scenario.builder_with_url Scenario.bad_url))
  = (Raised (ValueError "Invalid IPv6 URL"),
     Sample.start (Scenario.builder_with_url Scenario.bad_url)).
Proof. vm_compute. reflexivity. Qed.

Lemma C3_setup_error_witness :
  unconfigured (this (Sample.start init))
  ∧ calls_made Sample.ip_address Sample.normalize_nfkc
      (Sample.responds Sample.ok_response) Sample.request_name
      Sample.doctype Sample.document_name (Sample.start init) = [].
Proof.
  assert (unconfigured (this (Sample.start init))) as Hun by (by left).
  split; [exact Hun|].
  apply (C3_setup_error Sample.ip_address Sample.normalize_nfkc
           (Sample.responds Sample.ok_response) Sample.request_name
           Sample.doctype Sample.document_name (Sample.start init) Hun).
Defined.

Lemma C4_transport_fault_witness :
  (make_remote_call Sample.ip_address Sample.normalize_nfkc
     (Sample.fails (TimeoutError "deadline exceeded")) Sample.request_name
     Sample.doctype Sample.document_name (Sample.start Sample.builder)).1
  = Raised (Thrown "Timeout Encountered" (ErrorInstance (TimeoutError "deadline exceeded"))
              "Timeout Error").
Proof.
  apply (C4_transport_fault Sample.ip_address Sample.normalize_nfkc
           (Sample.fails (TimeoutError "deadline exceeded"))
           Sample.request_name Sample.doctype Sample.document_name
           (Sample.start Sample.builder) Sample.endpoint Sample.request_headers
           Sample.on_success Sample.on_error (TimeoutError "deadline exceeded")).
  - apply configured_sample.
  - apply (sample_call_made _ Sample.builder _ _ (configured_sample Sample.on_success)).
  - reflexivity.
Defined.

Lemma C7_audit_before_network_witness :
  ∃ rest,
    calls_made Sample.ip_address Sample.normalize_nfkc
      (Sample.fails (ClientConnectorError "refused")) Sample.request_name
      Sample.doctype Sample.document_name (Sample.start Sample.builder)
    = CreateRequestLog
        (audit_record Sample.request_name (Sample.start Sample.builder)
           Sample.endpoint Sample.request_headers Sample.doctype Sample.document_name)
      :: MakePostRequest Sample.endpoint (Some Sample.request_payload)
           Sample.request_headers
      :: rest.
Proof.
  destruct (proj1 (C7_audit_before_network Sample.ip_address Sample.normalize_nfkc
                     (Sample.fails (ClientConnectorError "refused"))
                     Sample.request_name Sample.doctype Sample.document_name
                     (Sample.start Sample.builder) Sample.endpoint Sample.request_headers
                     Sample.on_success Sample.on_error
                     (configured_sample Sample.on_success))
              _ urlparse_endpoint)
    as (rest & Hcalls & _).
  exists rest. exact Hcalls.
Defined.

Lemma C2_business_error_witness :
  count is_error_call
    (calls_made Sample.ip_address Sample.normalize_nfkc
       (Sample.responds Sample.error_response) Sample.request_name
       Sample.doctype Sample.document_name (Sample.start Sample.builder)) = 1%nat.
Proof.
  destruct (C2_business_error Sample.ip_address Sample.normalize_nfkc
              (Sample.responds Sample.error_response) Sample.request_name
              Sample.doctype Sample.document_name (Sample.start Sample.builder)
              Sample.endpoint Sample.request_headers Sample.on_success Sample.on_error
              Sample.error_response (PyStr "910"))
    as (parsed_url & _ & _ & Hcount & _).
  - apply configured_sample.
  - apply (sample_call_made _ Sample.builder _ _ (configured_sample Sample.on_success)).
  - reflexivity.
  - vm_compute. reflexivity.
  - discriminate.
  - exact Hcount.
Defined.

Lemma C1_success_witness :
  last_request_dates
    (world (make_remote_call Sample.ip_address Sample.normalize_nfkc
              (Sample.responds Sample.ok_response) Sample.request_name
              Sample.doctype Sample.document_name (Sample.start Sample.builder)).2)
  = <["/endpointName" := PyStr "20240102030405"]> ∅.
Proof.
  destruct (C1_success Sample.ip_address Sample.normalize_nfkc
              (Sample.responds Sample.ok_response) Sample.request_name
              Sample.doctype Sample.document_name (Sample.start Sample.builder)
              Sample.endpoint Sample.request_headers Sample.on_success Sample.on_error
              Sample.ok_response)
    as (parsed_url & Hparsed & _ & Hupdate & _).
  - apply configured_sample.
  - apply (sample_call_made _ Sample.builder _ _ (configured_sample Sample.on_success)).
  - reflexivity.
  - vm_compute. reflexivity.
  - destruct (Hupdate eq_refl (PyStr "20240102030405")) as (_ & _ & _ & Hdates);
      [vm_compute; reflexivity|].
    rewrite Hdates.
    change Sample.endpoint with "https://host/api/v1/endpointName" in Hparsed.
    rewrite urlparse_endpoint in Hparsed. injection Hparsed as <-. reflexivity.
Defined.

Lemma C6_method_not_consulted_witness :
  calls_made Sample.ip_address Sample.normalize_nfkc
    (Sample.responds Sample.ok_response) Sample.request_name
    Sample.doctype Sample.document_name
    (on_self (set_method "GET") (Sample.start Sample.builder))
  = calls_made Sample.ip_address Sample.normalize_nfkc
      (Sample.responds Sample.ok_response) Sample.request_name
      Sample.doctype Sample.document_name (Sample.start Sample.builder).
Proof.
  apply (C6_method_not_consulted Sample.ip_address Sample.normalize_nfkc
           (Sample.responds Sample.ok_response)
           Sample.request_name Sample.doctype Sample.document_name
           (Sample.start Sample.builder) Sample.endpoint Sample.request_headers
           Sample.on_success Sample.on_error "GET").
  apply configured_sample.
Defined.

(** C1, as stated, fails: with a success handler that raises, the network
    call completes with a response that says "000", and the tracker is not
    updated. *)
Lemma C1_raising_handler_counterexample :
  configured (this (Sample.start (Sample.builder_with Sample.failing_on_success)))
    Sample.endpoint Sample.request_headers Sample.failing_on_success Sample.on_error
  ∧ MakePostRequest Sample.endpoint (Some Sample.request_payload) Sample.request_headers
    ∈ calls_made Sample.ip_address Sample.normalize_nfkc
        (Sample.responds Sample.ok_response) Sample.request_name
        Sample.doctype Sample.document_name
        (Sample.start (Sample.builder_with Sample.failing_on_success))
  ∧ Sample.responds Sample.ok_response Sample.endpoint (Some Sample.request_payload)
      Sample.request_headers = Responds Sample.ok_response
  ∧ Sample.ok_response !! "resultCd" = Some (PyStr "000")
  ∧ ¬ (count is_tracker_update
         (calls_made Sample.ip_address Sample.normalize_nfkc
            (Sample.responds Sample.ok_response) Sample.request_name
            Sample.doctype Sample.document_name
            (Sample.start (Sample.builder_with Sample.failing_on_success))) = 1%nat).
Proof.
  split; [apply configured_sample|].
  split; [apply (sample_call_made _ _ _ _ (configured_sample Sample.failing_on_success))|].
  split; [done|]. split; [by vm_compute|].
  intros Hcount. vm_compute in Hcount. discriminate Hcount.
Qed.

(** C5, as stated, fails: a dispatcher that is not configured invokes no
    handler, and no network call is made that could raise a fault. *)
Lemma C5_unconfigured_counterexample :
  ¬ (handler_calls
       (calls_made Sample.ip_address Sample.normalize_nfkc
          (Sample.responds Sample.ok_response) Sample.request_name
          Sample.doctype Sample.document_name (Sample.start init)) = 1%nat
     ∨ transport_fault_raised Sample.ip_address Sample.normalize_nfkc
         (Sample.responds Sample.ok_response) Sample.request_name
         Sample.doctype Sample.document_name (Sample.start init)).
Proof.
  intros [Hone | (url & payload & headers & error & Hcall & _)].
  - vm_compute in Hone. discriminate Hone.
  - change (calls_made Sample.ip_address Sample.normalize_nfkc
              (Sample.responds Sample.ok_response) Sample.request_name
              Sample.doctype Sample.document_name (Sample.start init))
      with (@nil event) in Hcall.
    by apply elem_of_nil in Hcall.
Qed.

(** C6, as stated, fails: two dispatchers that differ only in the method
    write the same audit record, so no reading of the record gives the
    configured method. *)
Lemma C6_method_counterexample : ¬ method_reaches_collaborators.
Proof.
  intros (recorded & sent & Hread).
  pose proof (Hread Sample.ip_address Sample.normalize_nfkc
                (Sample.responds Sample.ok_response) Sample.request_name
                Sample.doctype Sample.document_name (Sample.start Sample.builder)
                _ _ _ _ (configured_sample Sample.on_success)) as Hpost.
  pose proof (Hread Sample.ip_address Sample.normalize_nfkc
                (Sample.responds Sample.ok_response) Sample.request_name
                Sample.doctype Sample.document_name
                (on_self (set_method "GET") (Sample.start Sample.builder))
                _ _ _ _ (configured_sample Sample.on_success)) as Hget.
  rewrite (calls_configured _ _ _ _ _ _ _ _ _ _ _ _ (configured_sample Sample.on_success)
             urlparse_endpoint) in Hpost.
  rewrite (calls_configured _ _ _ _ _ _
             (on_self (set_method "GET") (Sample.start Sample.builder))
             _ _ _ _ _ (configured_sample Sample.on_success) urlparse_endpoint) in Hget.
  apply Forall_cons in Hpost as [Hpost _]. apply Forall_cons in Hget as [Hget _].
  assert ("POST" = "GET") as Hsame; [|discriminate Hsame].
  transitivity (recorded (audit_record Sample.request_name (Sample.start Sample.builder)
                            Sample.endpoint Sample.request_headers Sample.doctype
                            Sample.document_name)).
  - symmetry. exact Hpost.
  - exact Hget.
Qed.

(** C7, as stated, fails: a dispatcher whose four fields are set passes the
    configuration check, and when [urlparse] raises on its URL the dispatch
    ends there: no audit record is written. *)
Lemma C7_rejected_url_counterexample :
  configured (this (Sample.start (Scenario.builder_with_url Scenario.bad_url)))
    Scenario.bad_url Sample.request_headers Sample.on_success Sample.on_error
  ∧ (make_remote_call Sample.ip_address Sample.normalize_nfkc
       (Sample.responds Sample.ok_response) Sample.request_name
       Sample.doctype Sample.document_name
       (Sample.start (Scenario.builder_with_url Scenario.bad_url))).1
    = Raised (ValueError "Invalid IPv6 URL")
  ∧ ¬ (count is_request_log
         (calls_made Sample.ip_address Sample.normalize_nfkc
            (Sample.responds Sample.ok_response) Sample.request_name
            Sample.doctype Sample.document_name
            (Sample.start (Scenario.builder_with_url Scenario.bad_url))) = 1%nat).
Proof.
  split; [apply configured_bad_url|]. split; [by vm_compute|].
  intros Hcount. vm_compute in Hcount. discriminate Hcount.
Qed.

(** ** What a dispatch raises, logs and leaves behind *)

Section DispatchBehaviour.

Variable ip_address : string -> outcome parse.ip_address_class.
Variable normalize_nfkc : string -> string.
Variable make_post_request : string -> option dict -> dict -> post_result.
Variable request_name : World -> string.
Variables (doctype : option Doctype) (document_name : option string).

Local Abbreviation run :=
  (make_remote_call ip_address normalize_nfkc make_post_request request_name
     doctype document_name).
Local Abbreviation calls :=
  (calls_made ip_address normalize_nfkc make_post_request request_name
     doctype document_name).
Local Abbreviation urlparse := (parse.urlparse ip_address normalize_nfkc).
Local Abbreviation audit := (audit_record request_name).
Local Abbreviation run_at :=
  (run_configured ip_address normalize_nfkc make_post_request request_name
     doctype document_name).
Local Abbreviation calls_at :=
  (calls_configured ip_address normalize_nfkc make_post_request request_name
     doctype document_name).
Local Abbreviation cases :=
  (dispatch_cases ip_address normalize_nfkc).

Lemma caught_outcome e (s0 : state) :
  (caught e s0).1 =
  match e with
  | Transport error =>
      Raised (Thrown (fault_message error) (ErrorInstance error) (fault_title error))
  | _ => Raised e
  end.
Proof. by by_exception e. Qed.

(** A dispatch returns normally in exactly two cases, both behind the
    configuration check and [urlparse]: the response says "000", the success
    handler returns and the response holds a result timestamp; or the
    response holds another result code and the error handler returns. *)
Theorem returns_exactly_when (s : state) :
  (run s).1 = Done tt ↔
  ∃ url headers on_success on_error parsed_url response resultCd,
    configured (this s) url headers on_success on_error
    ∧ urlparse url = Done parsed_url
    ∧ make_post_request url (_payload (this s)) headers = Responds response
    ∧ response !! "resultCd" = Some resultCd
    ∧ ((resultCd = PyStr "000" ∧ on_success response = Returns
        ∧ is_Some (response !! "resultDt"))
       ∨ (resultCd ≠ PyStr "000"
          ∧ on_error response (route_path parsed_url) doctype document_name
              (frappe.name (audit s url headers doctype document_name)) = Returns)).
Proof.
  split.
  - destruct (cases s)
      as [Hun | [(url & headers & on_success & on_error & e & Hcfg & Hrejected)
                | (url & headers & on_success & on_error & parsed_url & Hcfg & Hparsed)]].
    { by rewrite run_unconfigured. }
    { by rewrite (run_rejected _ _ _ _ _ _ s _ _ _ _ e Hcfg Hrejected). }
    rewrite (run_at _ _ _ _ _ _ Hcfg Hparsed).
    destruct (make_post_request _ _ _) as [response | fault] eqn:Hnet;
      [|by rewrite caught_outcome].
    destruct (response !! "resultCd") as [resultCd|] eqn:Hcd; [|done].
    destruct (eq_str resultCd "000") eqn:Heq.
    + apply eq_str_true in Heq.
      destruct (on_success response) as [|e] eqn:Hres.
      * destruct (response !! "resultDt") as [resultDt|] eqn:Hdt; [|done].
        intros _. exists url, headers, on_success, on_error, parsed_url, response, resultCd.
        do 4 (split; [done|]). left. rewrite Hdt. by eauto.
      * rewrite caught_outcome. by by_exception e.
    + destruct (on_error _ _ _ _ _) as [|e] eqn:Hres.
      * intros _. exists url, headers, on_success, on_error, parsed_url, response, resultCd.
        do 4 (split; [done|]). right. split; [|done].
        intros ->. by rewrite (proj2 (eq_str_true _ _) eq_refl) in Heq.
      * simpl. rewrite caught_outcome. by by_exception e.
  - intros (url & headers & on_success & on_error & parsed_url & response & resultCd
            & Hcfg & Hparsed & Hnet & Hcd & Hcase).
    rewrite (run_at _ _ _ _ _ _ Hcfg Hparsed), Hnet, Hcd.
    destruct Hcase as [(-> & Hres & [resultDt Hdt]) | (Hne & Hres)].
    + simpl. by rewrite Hres, Hdt.
    + by rewrite (eq_str_false _ _ Hne), Hres.
Qed.

(** Every entry in the diagnostic log is written with the trace, is the
    last call of its execution and the only log entry of it, and is followed
    by the blocking error that belongs to the logged fault. *)
Theorem log_entry_then_blocking_error (s : state) (error : transport_error) (exc_info : bool) :
  LoggerException error exc_info ∈ calls s →
  exc_info = true
  ∧ last (calls s) = Some (LoggerException error true)
  ∧ count is_logger_call (calls s) = 1%nat
  ∧ (run s).1 = Raised (Thrown (fault_message error) (ErrorInstance error)
                          (fault_title error)).
Proof.
  destruct (cases s)
    as [Hun | [(url & headers & on_success & on_error & e & Hcfg & Hrejected)
              | (url & headers & on_success & on_error & parsed_url & Hcfg & Hparsed)]].
  { rewrite (calls_unconfigured _ _ _ _ _ _ s Hun).
    intros Hin. by apply elem_of_nil in Hin. }
  { rewrite (calls_rejected _ _ _ _ _ _ s _ _ _ _ e Hcfg Hrejected).
    intros Hin. by apply elem_of_nil in Hin. }
  rewrite (run_at _ _ _ _ _ _ Hcfg Hparsed), (calls_at _ _ _ _ _ _ Hcfg Hparsed).
  destruct (make_post_request _ _ _) as [response | fault].
  - destruct (response !! "resultCd") as [resultCd|]; [|intros Hin; in_calls Hin].
    destruct (eq_str resultCd "000").
    + destruct (on_success response) as [|e].
      * destruct (response !! "resultDt"); intros Hin; in_calls Hin.
      * rewrite caught_outcome.
        by_exception e; intros Hin; in_calls Hin. all: by injection Hin as -> ->.
    + destruct (on_error _ _ _ _ _) as [|e]; [intros Hin; in_calls Hin|].
      simpl settle. rewrite caught_outcome.
      by_exception e; intros Hin; in_calls Hin. all: by injection Hin as -> ->.
  - rewrite caught_outcome. intros Hin. in_calls Hin. by injection Hin as -> ->.
Qed.

(** An exception that a handler raises, other than of the three transport
    classes, reaches the caller as it is: nothing is logged and the tracker
    is left alone. *)
Theorem handler_exception_propagates (s : state) url headers on_success on_error
    parsed_url response resultCd e :
  configured (this s) url headers on_success on_error →
  urlparse url = Done parsed_url →
  make_post_request url (_payload (this s)) headers = Responds response →
  response !! "resultCd" = Some resultCd →
  (if eq_str resultCd "000" then on_success response
   else on_error response (route_path parsed_url) doctype document_name
          (frappe.name (audit s url headers doctype document_name))) = Raises e →
  (∀ error, e ≠ Transport error) →
  (run s).1 = Raised e
  ∧ handler_calls (calls s) = 1%nat
  ∧ count is_logger_call (calls s) = 0%nat
  ∧ last_request_dates (world (run s).2) = last_request_dates (world s).
Proof.
  intros Hcfg Hparsed Hnet Hcd Hres Hother.
  rewrite (run_at _ _ _ _ _ _ Hcfg Hparsed), (calls_at _ _ _ _ _ _ Hcfg Hparsed),
    Hnet, Hcd.
  destruct (eq_str resultCd "000"); rewrite Hres; simpl settle;
    rewrite caught_outcome, caught_dates;
    by_exception e; try done; by destruct (Hother _ eq_refl).
Qed.

(** A handler runs inside the [try] block: when it raises an exception of
    one of the three transport classes, the exception is logged and turned
    into the blocking error of that class, as if the network call had
    failed. *)
Theorem handler_transport_error_reported (s : state) url headers on_success on_error
    parsed_url response resultCd error :
  configured (this s) url headers on_success on_error →
  urlparse url = Done parsed_url →
  make_post_request url (_payload (this s)) headers = Responds response →
  response !! "resultCd" = Some resultCd →
  (if eq_str resultCd "000" then on_success response
   else on_error response (route_path parsed_url) doctype document_name
          (frappe.name (audit s url headers doctype document_name)))
  = Raises (Transport error) →
  (run s).1 = Raised (Thrown (fault_message error) (ErrorInstance error)
                        (fault_title error))
  ∧ last (calls s) = Some (LoggerException error true)
  ∧ handler_calls (calls s) = 1%nat
  ∧ last_request_dates (world (run s).2) = last_request_dates (world s).
Proof.
  intros Hcfg Hparsed Hnet Hcd Hres.
  rewrite (run_at _ _ _ _ _ _ Hcfg Hparsed), (calls_at _ _ _ _ _ _ Hcfg Hparsed),
    Hnet, Hcd.
  destruct (eq_str resultCd "000"); rewrite Hres; simpl settle;
    by rewrite caught_outcome, caught_dates.
Qed.

(** A response without a result code: the subscript raises [KeyError]
    before either handler is called; the audit record and the network call
    are the only calls made. *)
Theorem missing_result_code (s : state) url headers on_success on_error parsed_url
    response :
  configured (this s) url headers on_success on_error →
  urlparse url = Done parsed_url →
  make_post_request url (_payload (this s)) headers = Responds response →
  response !! "resultCd" = None →
  (run s).1 = Raised (KeyError "resultCd")
  ∧ calls s = [CreateRequestLog (audit s url headers doctype document_name);
               MakePostRequest url (_payload (this s)) headers]
  ∧ last_request_dates (world (run s).2) = last_request_dates (world s).
Proof.
  intros Hcfg Hparsed Hnet Hcd.
  by rewrite (run_at _ _ _ _ _ _ Hcfg Hparsed), (calls_at _ _ _ _ _ _ Hcfg Hparsed),
    Hnet, Hcd.
Qed.

(** A "000" response without a result timestamp: the success handler has
    been called when the subscript raises [KeyError], and the tracker is not
    updated. *)
Theorem missing_result_timestamp (s : state) url headers on_success on_error parsed_url
    response :
  configured (this s) url headers on_success on_error →
  urlparse url = Done parsed_url →
  make_post_request url (_payload (this s)) headers = Responds response →
  response !! "resultCd" = Some (PyStr "000") →
  on_success response = Returns →
  response !! "resultDt" = None →
  (run s).1 = Raised (KeyError "resultDt")
  ∧ calls s = [CreateRequestLog (audit s url headers doctype document_name);
               MakePostRequest url (_payload (this s)) headers;
               SuccessCallback response]
  ∧ last_request_dates (world (run s).2) = last_request_dates (world s).
Proof.
  intros Hcfg Hparsed Hnet Hcd Hres Hdt.
  rewrite (run_at _ _ _ _ _ _ Hcfg Hparsed), (calls_at _ _ _ _ _ _ Hcfg Hparsed),
    Hnet, Hcd.
  simpl. by rewrite Hres, Hdt.
Qed.

(** The tracker is updated only at the end of a successful dispatch: an
    update on record means [urlparse] accepted the URL, the response said
    "000", the success handler returned, the timestamp is the response's and
    the route is the one derived from the URL, and the dispatch then
    returns. *)
Theorem tracker_update_only_on_success (s : state) (response_datetime : pyval)
    (route : string) :
  UpdateLastRequestDate response_datetime route ∈ calls s →
  ∃ url headers on_success on_error parsed_url response,
    configured (this s) url headers on_success on_error
    ∧ urlparse url = Done parsed_url
    ∧ make_post_request url (_payload (this s)) headers = Responds response
    ∧ response !! "resultCd" = Some (PyStr "000")
    ∧ on_success response = Returns
    ∧ response !! "resultDt" = Some response_datetime
    ∧ route = route_path parsed_url
    ∧ (run s).1 = Done tt.
Proof.
  destruct (cases s)
    as [Hun | [(url & headers & on_success & on_error & e & Hcfg & Hrejected)
              | (url & headers & on_success & on_error & parsed_url & Hcfg & Hparsed)]].
  { rewrite (calls_unconfigured _ _ _ _ _ _ s Hun).
    intros Hin. by apply elem_of_nil in Hin. }
  { rewrite (calls_rejected _ _ _ _ _ _ s _ _ _ _ e Hcfg Hrejected).
    intros Hin. by apply elem_of_nil in Hin. }
  rewrite (run_at _ _ _ _ _ _ Hcfg Hparsed), (calls_at _ _ _ _ _ _ Hcfg Hparsed).
  destruct (make_post_request _ _ _) as [response | fault] eqn:Hnet;
    [|intros Hin; in_calls Hin].
  destruct (response !! "resultCd") as [resultCd|] eqn:Hcd; [|intros Hin; in_calls Hin].
  destruct (eq_str resultCd "000") eqn:Heq.
  - apply eq_str_true in Heq. subst resultCd.
    destruct (on_success response) as [|e] eqn:Hres.
    + destruct (response !! "resultDt") as [resultDt|] eqn:Hdt;
        intros Hin; in_calls Hin.
      injection Hin as -> ->.
      by exists url, headers, on_success, on_error, parsed_url, response.
    + by_exception e; intros Hin; in_calls Hin.
  - destruct (on_error _ _ _ _ _) as [|e]; [intros Hin; in_calls Hin|].
    by_exception e; intros Hin; in_calls Hin.
Qed.

(** No execution changes the last request date of a route other than the
    one derived from the configured URL. *)
Theorem tracker_other_routes_untouched (s : state) (route : string) :
  (∀ url parsed_url, _url (this s) = Some url → urlparse url = Done parsed_url →
                     route ≠ route_path parsed_url) →
  last_request_dates (world (run s).2) !! route = last_request_dates (world s) !! route.
Proof.
  intros Hroute.
  destruct (cases s)
    as [Hun | [(url & headers & on_success & on_error & e & Hcfg & Hrejected)
              | (url & headers & on_success & on_error & parsed_url & Hcfg & Hparsed)]].
  { by rewrite run_unconfigured. }
  { by rewrite (run_rejected _ _ _ _ _ _ s _ _ _ _ e Hcfg Hrejected). }
  rewrite (run_at _ _ _ _ _ _ Hcfg Hparsed).
  destruct (make_post_request _ _ _) as [response | fault];
    [|by rewrite caught_dates].
  destruct (response !! "resultCd") as [resultCd|]; [|done].
  destruct (eq_str resultCd "000").
  - destruct (on_success response) as [|e]; [|by rewrite caught_dates].
    destruct (response !! "resultDt") as [resultDt|]; [|done].
    simpl. apply lookup_insert_ne. apply not_eq_sym, (Hroute url); [apply Hcfg | done].
  - destruct (on_error _ _ _ _ _) as [|e]; [done|].
    simpl settle. by rewrite caught_dates.
Qed.

(** What a dispatch adds to the audit records: nothing when the
    configuration check fails or [urlparse] raises, one record otherwise. *)
Lemma run_requests (s : state) :
  ∃ added, integration_requests (world (run s).2)
           = integration_requests (world s) ++ added
           ∧ (length added ≤ 1)%nat.
Proof.
  destruct (cases s)
    as [Hun | [(url & headers & on_success & on_error & e & Hcfg & Hrejected)
              | (url & headers & on_success & on_error & parsed_url & Hcfg & Hparsed)]].
  { exists []. rewrite run_unconfigured; [|done]. simpl. rewrite app_nil_r.
    split; [done | lia]. }
  { exists []. rewrite (run_rejected _ _ _ _ _ _ s _ _ _ _ e Hcfg Hrejected).
    simpl. rewrite app_nil_r. split; [done | lia]. }
  exists [audit s url headers doctype document_name]. split; [|simpl; lia].
  rewrite (run_at _ _ _ _ _ _ Hcfg Hparsed).
  destruct (make_post_request _ _ _) as [response | fault];
    [|by rewrite caught_requests].
  destruct (response !! "resultCd") as [resultCd|]; [|done].
  destruct (eq_str resultCd "000").
  - destruct (on_success response) as [|e]; [|by rewrite caught_requests].
    by destruct (response !! "resultDt").
  - destruct (on_error _ _ _ _ _) as [|e]; [done|].
    simpl settle. by rewrite caught_requests.
Qed.


(** A URL with a scheme and a host that holds one kind of square bracket
    and not the other makes the dispatch raise [ValueError] out of
    [urlparse], whatever follows the host: the state is left as it was, so
    no audit record is written, no call is made and no handler runs. *)
Theorem unbalanced_host_rejected (s : state) (sch host rest : string) headers on_success
    on_error :
  configured (this s) (sch +:+ "://" +:+ host +:+ rest) headers on_success on_error →
  scheme_name sch = true →
  free_of "/?#" host = true →
  one_line (host +:+ rest) = true →
  (rest = "" ∨ ∃ d t, rest = String d t ∧ Str.contains d "/?#" = true) →
  Str.contains "[" host ≠ Str.contains "]" host →
  run s = (Raised (ValueError "Invalid IPv6 URL"), s)
  ∧ calls s = [].
Proof.
  intros Hcfg Hsch Hhost Hline Hrest Hbrackets.
  assert (urlparse (sch +:+ "://" +:+ host +:+ rest)
          = Raised (ValueError "Invalid IPv6 URL")) as Hrejected.
  { unfold parse.urlparse.
    by rewrite (urlsplit_unbalanced ip_address normalize_nfkc sch host rest). }
  split.
  - by apply (run_rejected _ _ _ _ _ _ s _ _ _ _ _ Hcfg).
  - by apply (calls_rejected _ _ _ _ _ _ s _ _ _ _ _ Hcfg Hrejected).
Qed.

End DispatchBehaviour.

(** ** Configuring a dispatcher *)

Section Operations.

Variable ip_address : string -> outcome parse.ip_address_class.
Variable normalize_nfkc : string -> string.
Variable make_post_request : string -> option dict -> dict -> post_result.
Variable request_name : World -> string.

Local Abbreviation perform_op :=
  (perform ip_address normalize_nfkc make_post_request request_name).
Local Abbreviation perform_ops :=
  (perform_all ip_address normalize_nfkc make_post_request request_name).

Lemma last_set_cons {A} (set : operation -> option A) op ops :
  last_set set (op :: ops)
  = match last_set set ops with
    | Some v => Some v
    | None => set op
    end.
Proof.
  unfold last_set.
  change (omap set (op :: ops))
    with (match set op with Some v => v :: omap set ops | None => omap set ops end).
  destruct (set op) as [v|].
  - destruct (omap set ops) as [|w rest] eqn:Hrest; [done|].
    change (last (v :: w :: rest)) with (last (w :: rest)).
    destruct (last (w :: rest)) eqn:Hlast; [done|].
    by apply last_None in Hlast.
  - by destruct (last (omap set ops)).
Qed.

(** A field that only its setter writes holds, after any operations, what
    the last call of the setter gave it, or else what it held before. *)
Lemma field_after_ops {A} (get : EndpointsBuilder -> A) (set : operation -> option A) :
  (∀ op s, get (this (perform_op op s)) = default (get (this s)) (set op)) →
  ∀ ops s, get (this (perform_ops ops s)) = default (get (this s)) (last_set set ops).
Proof.
  intros Hop ops. induction ops as [|op ops IH]; intros s; [done|].
  change (perform_ops (op :: ops) s) with (perform_ops ops (perform_op op s)).
  rewrite IH, last_set_cons, Hop.
  by destruct (last_set set ops).
Qed.

Lemma last_write_fields (ops : list operation) (s : state) :
  _url (this (perform_ops ops s)) = default (_url (this s)) (last_set url_set ops)
  ∧ _headers (this (perform_ops ops s))
    = default (_headers (this s)) (last_set headers_set ops)
  ∧ _success_callback_handler (this (perform_ops ops s))
    = default (_success_callback_handler (this s)) (last_set success_callback_set ops)
  ∧ _error_callback_handler (this (perform_ops ops s))
    = default (_error_callback_handler (this s)) (last_set error_callback_set ops).
Proof.
  repeat split; apply field_after_ops; intros op s0;
    destruct op; simpl; try done; by rewrite run_this.
Qed.

(** The setters are independent and the last write wins: after any sequence
    of operations, dispatches included, each field holds the value of the
    last call of its own setter, or what it held before when that setter was
    not called. *)
Theorem last_write_wins (ops : list operation) (s : state) :
  _method (this (perform_ops ops s)) = default (_method (this s)) (last_set method_set ops)
  ∧ _url (this (perform_ops ops s)) = default (_url (this s)) (last_set url_set ops)
  ∧ _payload (this (perform_ops ops s))
    = default (_payload (this s)) (last_set payload_set ops)
  ∧ _headers (this (perform_ops ops s))
    = default (_headers (this s)) (last_set headers_set ops)
  ∧ _error (this (perform_ops ops s)) = default (_error (this s)) (last_set error_set ops)
  ∧ _success_callback_handler (this (perform_ops ops s))
    = default (_success_callback_handler (this s)) (last_set success_callback_set ops)
  ∧ _error_callback_handler (this (perform_ops ops s))
    = default (_error_callback_handler (this s)) (last_set error_callback_set ops).
Proof.
  repeat split; apply field_after_ops; intros op s0;
    destruct op; simpl; try done; by rewrite run_this.
Qed.

(** A field that starts as [None] holds a value after [ops] exactly when
    the last call of its setter gave it one. *)
Lemma required_field_set {A} (last : option (option A)) (v : A) :
  default None last = Some v ↔ last = Some (Some v).
Proof. destruct last as [[w|]|]; simpl; split; congruence. Qed.

(** Starting from [__init__], a dispatcher passes the configuration check
    exactly when the last call of each of the setters of url, headers and
    both handlers gave a value other than [None]; method, payload and error
    need not be set, and dispatches in between change nothing. *)
Theorem configured_iff_required_setters (ops : list operation) (w : World)
    url headers on_success on_error :
  configured (this (perform_ops ops {| this := init; world := w |}))
    url headers on_success on_error
  ↔ last_set url_set ops = Some (Some url)
    ∧ last_set headers_set ops = Some (Some headers)
    ∧ last_set success_callback_set ops = Some (Some on_success)
    ∧ last_set error_callback_set ops = Some (Some on_error).
Proof.
  destruct (last_write_fields ops {| this := init; world := w |})
    as (Hu & Hh & Hs & He).
  unfold configured. rewrite Hu, Hh, Hs, He. simpl.
  by rewrite !required_field_set.
Qed.

(** Only dispatches write audit records, at most one each: after any
    sequence of operations the records there were are still there, in place
    and unchanged, followed by no more new ones than dispatches were made. *)
Theorem audit_records_append_only (ops : list operation) (s : state) :
  ∃ added,
    integration_requests (world (perform_ops ops s))
    = integration_requests (world s) ++ added
    ∧ (length added ≤ length (List.filter is_dispatch ops))%nat.
Proof.
  revert s. induction ops as [|op ops IH]; intros s.
  - exists []. by rewrite app_nil_r.
  - change (perform_ops (op :: ops) s) with (perform_ops ops (perform_op op s)).
    destruct (IH (perform_op op s)) as (added & -> & Hlen).
    destruct op; simpl;
      try (exists added; split; [done | lia]).
    match goal with
    | |- context [make_remote_call _ _ _ _ ?kind ?name s] =>
        destruct (run_requests ip_address normalize_nfkc make_post_request
                    request_name kind name s)
          as (first & -> & Hfirst)
    end.
    exists (first ++ added). rewrite <- app_assoc. split; [done|].
    rewrite length_app. lia.
Qed.

End Operations.

(** ** The route identifier of endpoint URLs *)

(** What precedes the last slash of a path has no part in the route
    identifier: for a path whose last segment is [segment], the identifier
    is a slash followed by [segment]. *)
Theorem route_path_of_last_segment (path segment : string) (s : state) :
  last_segment path segment →
  route_path_of path s = (Done ("/" +:+ segment), s).
Proof.
  intros Hlast. unfold route_path_of.
  by rewrite (last_item_last_segment path segment Hlast).
Qed.

(** The URL of an endpoint, [scheme://host/dir/.../name], with or without
    a query or a fragment behind it, and with a host that passes the checks
    of [urlsplit]: [urlparse] finds the scheme in lower case, the host and
    the path, no parameters, and the route identifier is a slash followed by
    the last segment of the path, whatever the scheme, the host, the
    directories, the query and the fragment are. *)
Theorem endpoint_url_route (ip_address : string -> outcome parse.ip_address_class)
    (normalize_nfkc : string -> string) (sch host path suffix : string) :
  scheme_name sch = true →
  free_of "/?#" host = true →
  netloc_accepted ip_address normalize_nfkc host →
  free_of "?#;" path = true →
  one_line (host +:+ path +:+ suffix) = true →
  (path = "" ∨ ∃ p, path = String "/" p) →
  (suffix = "" ∨ ∃ t, suffix = String "?" t ∨ suffix = String "#" t) →
  ∃ parsed_url,
    parse.urlparse ip_address normalize_nfkc (sch +:+ "://" +:+ host +:+ path +:+ suffix)
    = Done parsed_url
    ∧ parse.scheme parsed_url = Str.lower sch
    ∧ parse.netloc parsed_url = host
    ∧ parse.path parsed_url = path
    ∧ parse.params parsed_url = ""
    ∧ ∀ segment, last_segment path segment → route_path parsed_url = "/" +:+ segment.
Proof.
  intros Hsch Hhost Haccepted Hpath Hline Hpath_shape Hsuffix_shape.
  destruct (urlparse_plain_path ip_address normalize_nfkc sch host path suffix
              Hsch Hhost Haccepted Hpath Hline Hpath_shape Hsuffix_shape)
    as (query & fragment & Hparsed).
  eexists. split; [exact Hparsed|].
  do 4 (split; [done|]).
  intros segment Hlast. by apply route_path_last_segment.
Qed.

(** Parameters behind the name of an endpoint are cut off the route
    identifier: for a URL whose last segment is [name;params], under a scheme
    that has parameters and with a host that passes the checks of
    [urlsplit], [urlparse] moves [params] out of the path and the identifier
    is a slash and [name]. *)
Theorem endpoint_url_params_route (ip_address : string -> outcome parse.ip_address_class)
    (normalize_nfkc : string -> string) (sch host front name params suffix : string) :
  scheme_name sch = true →
  Str.lower sch ∈ parse.uses_params →
  free_of "/?#" host = true →
  netloc_accepted ip_address normalize_nfkc host →
  free_of "?#" front = true →
  (front = "" ∨ ∃ p, front = String "/" p) →
  free_of "/?#;" name = true →
  free_of "/?#" params = true →
  one_line (host +:+ (front +:+ String "/" (name +:+ String ";" params)) +:+ suffix) = true →
  (suffix = "" ∨ ∃ t, suffix = String "?" t ∨ suffix = String "#" t) →
  ∃ parsed_url,
    parse.urlparse ip_address normalize_nfkc
      (sch +:+ "://" +:+ host
       +:+ (front +:+ String "/" (name +:+ String ";" params)) +:+ suffix)
    = Done parsed_url
    ∧ parse.netloc parsed_url = host
    ∧ parse.path parsed_url = front +:+ String "/" name
    ∧ parse.params parsed_url = params
    ∧ route_path parsed_url = "/" +:+ name.
Proof.
  intros Hsch Huses Hhost Haccepted Hfront Hfront_shape Hname Hparams Hline
    Hsuffix_shape.
  assert (free_of "?#" name = true) as Hname_path.
  { revert Hname. apply free_of_weaken. intros c. cbn [Str.contains].
    by destruct (Ascii.eqb "/" c), (Ascii.eqb "?" c), (Ascii.eqb "#" c). }
  assert (free_of "?#" params = true) as Hparams_path.
  { revert Hparams. apply free_of_weaken. intros c. cbn [Str.contains].
    by destruct (Ascii.eqb "/" c), (Ascii.eqb "?" c), (Ascii.eqb "#" c). }
  assert (free_of "/;" name = true) as Hname_segment.
  { revert Hname. apply free_of_weaken. intros c. cbn [Str.contains].
    by destruct (Ascii.eqb "/" c), (Ascii.eqb "?" c), (Ascii.eqb "#" c),
         (Ascii.eqb ";" c). }
  assert (free_of "/" params = true) as Hparams_segment.
  { revert Hparams. apply free_of_weaken. intros c. cbn [Str.contains].
    by destruct (Ascii.eqb "/" c). }
  destruct (urlsplit_endpoint ip_address normalize_nfkc sch host
              (front +:+ String "/" (name +:+ String ";" params)) suffix)
    as (query & fragment & Hsplit); try done.
  { rewrite free_of_app, free_of_cons, free_of_app, free_of_cons.
    by rewrite Hfront, Hname_path, Hparams_path. }
  { destruct Hfront_shape as [-> | (p & ->)]; right; by eexists. }
  eexists. split.
  { unfold parse.urlparse. rewrite Hsplit. unfold mbind, outcome_bind.
    cbn [parse.split_path parse.split_scheme parse.split_netloc parse.split_query
           parse.split_fragment].
    rewrite (bool_decide_eq_true_2 _ Huses).
    assert (Str.contains ";" (front +:+ String "/" (name +:+ String ";" params)) = true)
      as ->.
    { rewrite contains_app. cbn [Str.contains]. rewrite contains_app.
      cbn [Str.contains]. rewrite Ascii.eqb_refl.
      by rewrite !orb_true_r. }
    cbn [andb]. cbv iota.
    rewrite (splitparams_last_segment front name params Hname_segment Hparams_segment).
    reflexivity. }
  cbn [parse.netloc parse.path parse.params].
  split; [done|]. split; [done|]. split; [done|].
  apply route_path_last_segment.
  split; [by apply (free_of_contains "/;") | right; by exists front].
Qed.

(** ** The behaviour at the sample inputs *)

Lemma log_entry_then_blocking_error_witness :
  (make_remote_call Sample.ip_address Sample.normalize_nfkc
     (Sample.fails (ClientOSError "reset by peer")) Sample.request_name
     Sample.doctype Sample.document_name (Sample.start Sample.builder)).1
  = Raised (Thrown "Connection reset by peer"
              (ErrorInstance (ClientOSError "reset by peer")) "Connection Error").
Proof.
  apply (log_entry_then_blocking_error Sample.ip_address Sample.normalize_nfkc
           (Sample.fails (ClientOSError "reset by peer"))
           Sample.request_name Sample.doctype Sample.document_name
           (Sample.start Sample.builder) (ClientOSError "reset by peer") true).
  assert (calls_made Sample.ip_address Sample.normalize_nfkc
            (Sample.fails (ClientOSError "reset by peer")) Sample.request_name
            Sample.doctype Sample.document_name (Sample.start Sample.builder)
          = [CreateRequestLog
               (audit_record Sample.request_name (Sample.start Sample.builder)
                  Sample.endpoint Sample.request_headers Sample.doctype
                  Sample.document_name);
             MakePostRequest Sample.endpoint (Some Sample.request_payload)
               Sample.request_headers;
             LoggerException (ClientOSError "reset by peer") true]) as ->
    by (vm_compute; reflexivity).
  do 2 apply list_elem_of_further. apply list_elem_of_here.
Defined.

Lemma handler_exception_propagates_witness :
  (make_remote_call Sample.ip_address Sample.normalize_nfkc
     (Sample.responds Sample.error_response) Sample.request_name
     Sample.doctype Sample.document_name
     (Sample.start (Scenario.builder_with_error_handler Scenario.rejecting_on_error))).1
  = Raised (OtherException "ValidationError").
Proof.
  eapply (handler_exception_propagates Sample.ip_address Sample.normalize_nfkc
           (Sample.responds Sample.error_response)
           Sample.request_name Sample.doctype Sample.document_name
           (Sample.start (Scenario.builder_with_error_handler Scenario.rejecting_on_error))
           Sample.endpoint Sample.request_headers Sample.on_success
           Scenario.rejecting_on_error _ Sample.error_response (PyStr "910")
           (OtherException "ValidationError")).
  - apply configured_scenario.
  - apply urlparse_endpoint.
  - reflexivity.
  - vm_compute. reflexivity.
  - reflexivity.
  - discriminate.
Defined.

Lemma handler_transport_error_reported_witness :
  (make_remote_call Sample.ip_address Sample.normalize_nfkc
     (Sample.responds Sample.error_response) Sample.request_name
     Sample.doctype Sample.document_name
     (Sample.start (Scenario.builder_with_error_handler Scenario.retrying_on_error))).1
  = Raised (Thrown "Timeout Encountered" (ErrorInstance (TimeoutError "retry timed out"))
              "Timeout Error").
Proof.
  eapply (handler_transport_error_reported Sample.ip_address Sample.normalize_nfkc
           (Sample.responds Sample.error_response)
           Sample.request_name Sample.doctype Sample.document_name
           (Sample.start (Scenario.builder_with_error_handler Scenario.retrying_on_error))
           Sample.endpoint Sample.request_headers Sample.on_success
           Scenario.retrying_on_error _ Sample.error_response (PyStr "910")
           (TimeoutError "retry timed out")).
  - apply configured_scenario.
  - apply urlparse_endpoint.
  - reflexivity.
  - vm_compute. reflexivity.
  - reflexivity.
Defined.

Lemma missing_result_code_witness :
  (make_remote_call Sample.ip_address Sample.normalize_nfkc
     (Sample.responds Scenario.no_code_response) Sample.request_name
     Sample.doctype Sample.document_name (Sample.start Sample.builder)).1
  = Raised (KeyError "resultCd").
Proof.
  eapply (missing_result_code Sample.ip_address Sample.normalize_nfkc
           (Sample.responds Scenario.no_code_response)
           Sample.request_name Sample.doctype Sample.document_name
           (Sample.start Sample.builder) Sample.endpoint Sample.request_headers
           Sample.on_success Sample.on_error _ Scenario.no_code_response).
  - apply configured_sample.
  - apply urlparse_endpoint.
  - reflexivity.
  - vm_compute. reflexivity.
Defined.

Lemma missing_result_timestamp_witness :
  (make_remote_call Sample.ip_address Sample.normalize_nfkc
     (Sample.responds Scenario.no_timestamp_response) Sample.request_name
     Sample.doctype Sample.document_name (Sample.start Sample.builder)).1
  = Raised (KeyError "resultDt").
Proof.
  eapply (missing_result_timestamp Sample.ip_address Sample.normalize_nfkc
           (Sample.responds Scenario.no_timestamp_response)
           Sample.request_name Sample.doctype Sample.document_name
           (Sample.start Sample.builder) Sample.endpoint Sample.request_headers
           Sample.on_success Sample.on_error _ Scenario.no_timestamp_response).
  - apply configured_sample.
  - apply urlparse_endpoint.
  - reflexivity.
  - vm_compute. reflexivity.
  - reflexivity.
  - vm_compute. reflexivity.
Defined.

Lemma tracker_update_only_on_success_witness :
  ∃ url headers on_success on_error parsed_url response,
    configured (this (Sample.start Sample.builder)) url headers on_success on_error
    ∧ parse.urlparse Sample.ip_address Sample.normalize_nfkc url = Done parsed_url
    ∧ Sample.responds Sample.ok_response url (_payload (this (Sample.start Sample.builder)))
        headers = Responds response
    ∧ response !! "resultCd" = Some (PyStr "000")
    ∧ on_success response = Returns
    ∧ response !! "resultDt" = Some (PyStr "20240102030405")
    ∧ "/endpointName" = route_path parsed_url
    ∧ (make_remote_call Sample.ip_address Sample.normalize_nfkc
         (Sample.responds Sample.ok_response) Sample.request_name
         Sample.doctype Sample.document_name (Sample.start Sample.builder)).1 = Done tt.
Proof.
  apply (tracker_update_only_on_success Sample.ip_address Sample.normalize_nfkc
           (Sample.responds Sample.ok_response)
           Sample.request_name Sample.doctype Sample.document_name
           (Sample.start Sample.builder) (PyStr "20240102030405") "/endpointName").
  assert (calls_made Sample.ip_address Sample.normalize_nfkc
            (Sample.responds Sample.ok_response) Sample.request_name
            Sample.doctype Sample.document_name (Sample.start Sample.builder)
          = [CreateRequestLog
               (audit_record Sample.request_name (Sample.start Sample.builder)
                  Sample.endpoint Sample.request_headers Sample.doctype
                  Sample.document_name);
             MakePostRequest Sample.endpoint (Some Sample.request_payload)
               Sample.request_headers;
             SuccessCallback Sample.ok_response;
             UpdateLastRequestDate (PyStr "20240102030405") "/endpointName"]) as ->
    by (vm_compute; reflexivity).
  do 3 apply list_elem_of_further. apply list_elem_of_here.
Defined.

Lemma tracker_other_routes_untouched_witness :
  last_request_dates
    (world (make_remote_call Sample.ip_address Sample.normalize_nfkc
              (Sample.responds Sample.ok_response) Sample.request_name
              Sample.doctype Sample.document_name
              {| this := Sample.builder; world := Scenario.used |}).2)
    !! "/selectItemList"
  = last_request_dates Scenario.used !! "/selectItemList".
Proof.
  apply (tracker_other_routes_untouched Sample.ip_address Sample.normalize_nfkc
           (Sample.responds Sample.ok_response)
           Sample.request_name Sample.doctype Sample.document_name
           {| this := Sample.builder; world := Scenario.used |} "/selectItemList").
  intros url parsed_url [= <-] Hparsed.
  change Sample.endpoint with "https://host/api/v1/endpointName" in Hparsed.
  rewrite urlparse_endpoint in Hparsed. injection Hparsed as <-.
  vm_compute. discriminate.
Defined.


Lemma unbalanced_host_rejected_witness :
  calls_made Sample.ip_address Sample.normalize_nfkc
    (Sample.responds Sample.ok_response) Sample.request_name
    Sample.doctype Sample.document_name
    (Sample.start (Scenario.builder_with_url Scenario.bad_url))
  = [].
Proof.
  apply (unbalanced_host_rejected Sample.ip_address Sample.normalize_nfkc
           (Sample.responds Sample.ok_response) Sample.request_name
           Sample.doctype Sample.document_name
           (Sample.start (Scenario.builder_with_url Scenario.bad_url))
           "http" "[::1" "/x]" Sample.request_headers Sample.on_success Sample.on_error).
  - apply configured_bad_url.
  - reflexivity.
  - vm_compute. reflexivity.
  - vm_compute. reflexivity.
  - right. by eexists _, _.
  - vm_compute. discriminate.
Defined.

Lemma route_path_of_last_segment_witness :
  route_path_of "/etims-api/saveItem" (Sample.start init)
  = (Done "/saveItem", Sample.start init).
Proof.
  apply (route_path_of_last_segment "/etims-api/saveItem" "saveItem" (Sample.start init)).
  split; [reflexivity|]. right. by exists "/etims-api".
Defined.

Lemma endpoint_url_route_witness :
  ∃ parsed_url,
    parse.urlparse Sample.ip_address Sample.normalize_nfkc
      "https://etims-api.kra.go.ke/etims-api/selectItemList?page=1" = Done parsed_url
    ∧ parse.scheme parsed_url = "https"
    ∧ parse.netloc parsed_url = "etims-api.kra.go.ke"
    ∧ parse.path parsed_url = "/etims-api/selectItemList"
    ∧ parse.params parsed_url = ""
    ∧ ∀ segment, last_segment "/etims-api/selectItemList" segment →
                 route_path parsed_url = "/" +:+ segment.
Proof.
  apply (endpoint_url_route Sample.ip_address Sample.normalize_nfkc
           "https" "etims-api.kra.go.ke" "/etims-api/selectItemList" "?page=1").
  - reflexivity.
  - vm_compute. reflexivity.
  - apply plain_host_accepted; vm_compute; reflexivity.
  - vm_compute. reflexivity.
  - vm_compute. reflexivity.
  - right. by eexists.
  - right. eexists. by left.
Defined.

Lemma endpoint_url_params_route_witness :
  ∃ parsed_url,
    parse.urlparse Sample.ip_address Sample.normalize_nfkc
      "https://etims-api.kra.go.ke/etims-api/saveItem;v=2?lang=en" = Done parsed_url
    ∧ parse.netloc parsed_url = "etims-api.kra.go.ke"
    ∧ parse.path parsed_url = "/etims-api/saveItem"
    ∧ parse.params parsed_url = "v=2"
    ∧ route_path parsed_url = "/saveItem".
Proof.
  apply (endpoint_url_params_route Sample.ip_address Sample.normalize_nfkc
           "https" "etims-api.kra.go.ke" "/etims-api" "saveItem" "v=2" "?lang=en").
  - reflexivity.
  - apply (bool_decide_unpack _). by vm_compute.
  - vm_compute. reflexivity.
  - apply plain_host_accepted; vm_compute; reflexivity.
  - vm_compute. reflexivity.
  - right. by eexists.
  - vm_compute. reflexivity.
  - vm_compute. reflexivity.
  - vm_compute. reflexivity.
  - right. eexists. by left.
Defined.
